(** * LinkShortener: a shallow embedding of [LinkShortener.py]

    The Python module is a Flask application over one SQLite table,
    [links].  This development embeds the helper functions
    ([generate_random_code], [format_url]), the [LinkDatabase] methods and
    the request handlers, and proves the properties the specification
    states about them.

    Conventions of the embedding:
    - a Python [int] is a [Z]; a [str] is a [string] whose characters are
      the code points below 256;
    - the [links] table is the list of its rows, in insertion order; the
      two [unique] columns of its schema are enforced by the statements
      that write rows;
    - the process state (the table behind [database_connection] and the
      state of the [random] module) is threaded through a state and
      exception monad; an uncaught exception leaves the table as it was
      before the failing statement;
    - SQLite keeps an [integer] in 64 bits: a Python [int] outside that
      range cannot be bound to a statement, and the statement raises
      [OverflowError] before it runs;
    - [validators.url] and [validators.domain] belong to an external
      package and are taken as an interface;
    - the only loop without a bound, in [get_valid_short_link], is unrolled
      at most [fuel] times. *)

From Stdlib Require Import ZArith List String Ascii Bool Lia.
Import ListNotations.
Local Open Scope string_scope.
Local Open Scope Z_scope.

(** ** The [validators] package *)

(** [validators.url(s)] and [validators.domain(s)] answer [True] or a falsy
    [ValidationFailure]; only their truth value is used. *)
Class Validators : Type := {
  validators_url : string -> bool;
  validators_domain : string -> bool
}.

(** ** Process state *)

(** The class [Link]; a row of [links] carries the same five values. *)
Record Link : Type := mkLink {
  short_link : string;
  url : string;
  deletion_id : string;
  clicks : Z;
  timestamp : Z
}.

(** The state of the [random] module: an unbounded sequence of raw draws
    and the number of draws consumed so far. *)
Record RandomSource : Type := mkRandom {
  draws : nat -> Z;
  cursor : nat
}.

Record World : Type := mkWorld {
  links : list Link;
  random : RandomSource
}.

Definition set_links (w : World) (t : list Link) : World :=
  {| links := t; random := random w |}.

Definition set_random (w : World) (r : RandomSource) : World :=
  {| links := links w; random := r |}.

(** ** State and exception monad *)

Inductive exn : Type :=
| IndexError
| IntegrityError
| OverflowError.

(** [Running] is the answer of a computation whose loop has not finished
    within the fuel it was given. *)
Inductive outcome (A : Type) : Type :=
| Returns (a : A) (w : World)
| Raises (e : exn) (w : World)
| Running.

Arguments Returns {A} a w.
Arguments Raises {A} e w.
Arguments Running {A}.

Definition M (A : Type) : Type := World -> outcome A.

Definition ret {A : Type} (a : A) : M A := fun w => Returns a w.

Definition raise {A : Type} (e : exn) : M A := fun w => Raises e w.

Definition bind {A B : Type} (c : M A) (k : A -> M B) : M B :=
  fun w =>
    match c w with
    | Returns a w' => k a w'
    | Raises e w' => Raises e w'
    | Running => Running
    end.

Declare Scope py_scope.
Delimit Scope py_scope with py.
Notation "x <- c ;; k" := (bind c (fun x => k))
  (at level 61, c at next level, right associativity) : py_scope.
Notation "c ;;; k" := (bind c (fun _ => k))
  (at level 61, right associativity) : py_scope.
Local Open Scope py_scope.

(** ** Python built-ins used by the module *)

(** [s[i]]: a negative index counts from the end, an index outside the
    string raises [IndexError]. *)
Definition str_getitem (s : string) (i : Z) : M ascii :=
  let n := Z.of_nat (String.length s) in
  let j := if i <? 0 then i + n else i in
  if (0 <=? j) && (j <? n) then
    match String.get (Z.to_nat j) s with
    | Some c => ret c
    | None => raise IndexError
    end
  else raise IndexError.

(** [random.randint(a, b)] for [a <= b]: an integer [N] with
    [a <= N <= b], obtained from the next raw draw. *)
Definition random_randint (a b : Z) : M Z :=
  fun w =>
    let r := random w in
    Returns (a + draws r (cursor r) mod (b - a + 1))
            (set_random w {| draws := draws r; cursor := S (cursor r) |}).

(** [[body for x in range(n)]], the body not using [x]. *)
Fixpoint list_comprehension {A : Type} (n : nat) (body : M A) : M (list A) :=
  match n with
  | O => ret []
  | S k =>
      x <- body ;;
      xs <- list_comprehension k body ;;
      ret (x :: xs)
  end.

(** [str.isspace] on one character below 256. *)
Definition isspace (c : ascii) : bool :=
  let n := nat_of_ascii c in
  ((9 <=? n) && (n <=? 13) || (28 <=? n) && (n <=? 32)
   || (n =? 133) || (n =? 160))%nat.

Fixpoint lstrip (s : string) : string :=
  match s with
  | EmptyString => EmptyString
  | String c s' => if isspace c then lstrip s' else s
  end.

Fixpoint rstrip (s : string) : string :=
  match s with
  | EmptyString => EmptyString
  | String c s' =>
      match rstrip s' with
      | EmptyString => if isspace c then EmptyString else String c EmptyString
      | t => String c t
      end
  end.

(** [s.strip()] *)
Definition strip (s : string) : string := rstrip (lstrip s).

(** ** Helper methods *)

(** Valid characters for short codes. *)
Definition charset : string :=
  "abcdefghjkmnopqrstuvwxyzABCDEFGHJKLMNPQRSTUVWXYZ23456789".

(** [generate_random_code(length)]:
    ["".join([charset[random.randint(0, len(charset)-1)] for x in range(length)])] *)
Definition generate_random_code (length : Z) : M string :=
  cs <- list_comprehension (Z.to_nat length)
          (i <- random_randint 0 (Z.of_nat (String.length charset) - 1) ;;
           str_getitem charset i) ;;
  ret (string_of_list_ascii cs).

(** The two kinds of value [format_url] returns: a string, or the integer
    [-1]. *)
Inductive formatted : Type :=
| Url (u : string)
| MinusOne.

Definition format_url {V : Validators} (url : string) : formatted :=
  if validators_url url then Url url
  else if validators_domain url then
    if validators_url ("http://" ++ url) then Url ("http://" ++ url)
    else MinusOne
  else MinusOne.

(** ** The class [LinkDatabase]

    Each method executes one SQL statement on the [links] table

      [short_link text unique, url text, deletion_id text unique,
       clicks integer default 0, timestamp integer, primary key(short_link)]

    and the writing ones commit before they return. *)

Module LinkDatabase.

(** An [int] that fits a SQLite [integer], a signed 64-bit number. *)
Definition sqlite_integer (z : Z) : bool :=
  (- 2 ^ 63 <=? z) && (z <=? 2 ^ 63 - 1).

(** The integer parameters of a statement that writes [link], [clicks]
    and [timestamp], can be bound. *)
Definition binds (link : Link) : bool :=
  sqlite_integer (clicks link) && sqlite_integer (timestamp link).

(** The condition [where short_link = ?]. *)
Definition where_short_link (key : string) (row : Link) : bool :=
  String.eqb (short_link row) key.

(** [create_database]: the table exists and has no rows. *)
Definition create_database : list Link := [].

(** [select * from links where short_link = ?], then [fetchone()]: the
    first matching row as a [Link], or [None]. *)
Definition get_link_from_short (short : string) : M (option Link) :=
  fun w => Returns (find (where_short_link short) (links w)) w.

(** [update links set url=?,deletion_id=?,clicks=?,timestamp=? where
    short_link = ?].  Binding an integer that does not fit raises
    [OverflowError]; the statement fails when it would give a row a
    [deletion_id] that another row already has. *)
Definition update_link (link : Link) : M unit :=
  fun w =>
    let hit := where_short_link (short_link link) in
    if negb (binds link) then Raises OverflowError w
    else if existsb hit (links w)
       && existsb (fun row => negb (hit row)
                              && String.eqb (deletion_id row) (deletion_id link))
                  (links w)
    then Raises IntegrityError w
    else
      Returns tt
        (set_links w
           (map (fun row =>
                   if hit row
                   then {| short_link := short_link row;
                           url := url link;
                           deletion_id := deletion_id link;
                           clicks := clicks link;
                           timestamp := timestamp link |}
                   else row)
                (links w))).

(** [delete from links where short_link = ?] *)
Definition delete_link (link : Link) : M unit :=
  fun w =>
    Returns tt
      (set_links w
         (filter (fun row => negb (where_short_link (short_link link) row))
                 (links w))).

(** [insert into links (url, short_link, deletion_id, clicks, timestamp)
    VALUES (?,?,?,?,?)].  Binding an integer that does not fit raises
    [OverflowError]; the statement fails when [short_link] or
    [deletion_id] is already in the table. *)
Definition add_link (link : Link) : M unit :=
  fun w =>
    if negb (binds link) then Raises OverflowError w
    else if existsb (fun row => String.eqb (short_link row) (short_link link)
                           || String.eqb (deletion_id row) (deletion_id link))
               (links w)
    then Raises IntegrityError w
    else Returns tt (set_links w (links w ++ [link])).

(** [select count(short_link) from links where short_link=?], the count
    compared with [0]. *)
Definition is_shortcode_in_db (shortCode : string) : M bool :=
  fun w =>
    Returns
      (0 <? Z.of_nat (List.length (filter (where_short_link shortCode) (links w))))
      w.

(** [get_valid_short_link(length)]: the [while True] loop, entered at
    most [fuel] times. *)
Fixpoint get_valid_short_link (fuel : nat) (length : Z) : M string :=
  match fuel with
  | O => fun _ => Running
  | S fuel' =>
      candidate <- generate_random_code length ;;
      taken <- is_shortcode_in_db candidate ;;
      if negb taken then ret candidate
      else get_valid_short_link fuel' length
  end.

End LinkDatabase.

(** ** Request handlers *)

(** What a handler answers.  A rendered template is identified by the
    message it shows. *)
Inductive Response : Type :=
| main_page_view
    (* main_page.html *)
| invalid_url_view (submitted_url : string)
    (* response_page.html: "The specified URL ({0}) is invalid." *)
| new_url_view (short_code deletion_code : string)
    (* new_url_page.html *)
| unknown_short_code_view
    (* response_page.html: "The specified short code does not exist." *)
| redirect (location : string)
| no_response
    (* the handler returned None *)
| unknown_short_url_view
    (* response_page.html: "The specified short URL does not exist" *)
| deletion_form_view (short_code : string)
    (* deletion_page.html: "Enter your deletion code to delete a shortlink:" *)
| statistics_view (short_code : string) (time_created n_clicks : Z)
    (* response_page.html: "Time Created: {0}, Clicks: {1}" *)
| shortcode_not_found_text
    (* "Error processing request: the shortcode could not be found." *)
| link_deleted_view
    (* response_page.html: "The link has been deleted." *)
| invalid_deletion_code_view
    (* deletion_page.html: "the deletion code you entered was not valid." *)
| internal_server_error (e : exn).
    (* the framework's answer to an uncaught exception *)

Section Handlers.

Context {V : Validators}.

Definition main_page : M Response := ret main_page_view.

(** [POST /]; [url_submit_field] is the form field, [current_epoch_time]
    the value of [int(time.time())]. *)
Definition handle_new_url (fuel : nat) (current_epoch_time : Z)
    (url_submit_field : string) : M Response :=
  let submitted_url := strip url_submit_field in
  match format_url submitted_url with
  | MinusOne => ret (invalid_url_view submitted_url)
  | Url formatted_url =>
      short_code <- LinkDatabase.get_valid_short_link fuel 3 ;;
      deletion_id <- generate_random_code 6 ;;
      let new_link :=
        mkLink short_code formatted_url deletion_id 0 current_epoch_time in
      LinkDatabase.add_link new_link ;;;
      ret (new_url_view short_code deletion_id)
  end.

(** [GET /<argument>]; [print(link_object)] writes to the console only and
    is left out. *)
Definition handle_redirect_url (argument : option string) : M Response :=
  match argument with
  | Some argument =>
      link_object <- LinkDatabase.get_link_from_short argument ;;
      match link_object with
      | None => ret unknown_short_code_view
      | Some link_object =>
          let link_object :=
            {| short_link := short_link link_object;
               url := url link_object;
               deletion_id := deletion_id link_object;
               clicks := clicks link_object + 1;
               timestamp := timestamp link_object |} in
          LinkDatabase.update_link link_object ;;;
          ret (redirect (url link_object))
      end
  | None => ret no_response
  end.

(** [GET /<shortcode>/delete] *)
Definition deletion_page_request (shortcode : string) : M Response :=
  present <- LinkDatabase.is_shortcode_in_db shortcode ;;
  if negb present then ret unknown_short_url_view
  else ret (deletion_form_view shortcode).

(** [GET /<shortcode>/stats] *)
Definition get_statistics_page (shortcode : string) : M Response :=
  link_object <- LinkDatabase.get_link_from_short shortcode ;;
  match link_object with
  | None => ret unknown_short_url_view
  | Some link_object =>
      ret (statistics_view shortcode (timestamp link_object) (clicks link_object))
  end.

(** [POST /<shortcode>/delete]; [deletion_code] is the form field
    [deletion_code_field]. *)
Definition handle_deletion_request (shortcode : string)
    (deletion_code : string) : M Response :=
  link_object <- LinkDatabase.get_link_from_short shortcode ;;
  match link_object with
  | None => ret shortcode_not_found_text
  | Some link_object =>
      if String.eqb deletion_code (deletion_id link_object) then
        LinkDatabase.delete_link link_object ;;;
        ret link_deleted_view
      else ret invalid_deletion_code_view
  end.

(** *** The application as a transition system *)

Inductive Request : Type :=
| GET_root
| POST_root (current_epoch_time : Z) (url_submit_field : string)
| GET_code (argument : string)
| GET_delete (shortcode : string)
| GET_stats (shortcode : string)
| POST_delete (shortcode deletion_code_field : string).

Definition handler (fuel : nat) (rq : Request) : M Response :=
  match rq with
  | GET_root => main_page
  | POST_root now field => handle_new_url fuel now field
  | GET_code argument => handle_redirect_url (Some argument)
  | GET_delete shortcode => deletion_page_request shortcode
  | GET_stats shortcode => get_statistics_page shortcode
  | POST_delete shortcode code => handle_deletion_request shortcode code
  end.

(** One request served: the answer and the state it leaves, or [None]
    while the handler is still running. *)
Definition serve (fuel : nat) (rq : Request) (w : World)
    : option (Response * World) :=
  match handler fuel rq w with
  | Returns r w' => Some (r, w')
  | Raises e w' => Some (internal_server_error e, w')
  | Running => None
  end.

(** A sequence of requests served one after the other. *)
Fixpoint serve_all (fuel : nat) (rqs : list Request) (w : World)
    : option (list Response * World) :=
  match rqs with
  | [] => Some ([], w)
  | rq :: rqs' =>
      match serve fuel rq w with
      | None => None
      | Some (r, w') =>
          match serve_all fuel rqs' w' with
          | None => None
          | Some (rs, w'') => Some (r :: rs, w'')
          end
      end
  end.

End Handlers.

(** ** Schema invariant *)

(** Both [unique] columns hold pairwise different values. *)
Definition schema_ok (t : list Link) : Prop :=
  NoDup (map short_link t) /\ NoDup (map deletion_id t).

(** ** A validator pair for the examples

    A small instance of the interface.  A domain is made of letters,
    digits, [-], [_] and [.], starts with a letter or digit and has a dot;
    a URL is [http://] or [https://] followed by a host and an optional
    path, where the host admits no [_].  A label with an underscore is thus
    a domain that does not become a URL by putting a scheme in front, a
    difference the patterns of the package show as well. *)
Module Sample.

Definition is_alnum (c : ascii) : bool :=
  let n := nat_of_ascii c in
  ((48 <=? n) && (n <=? 57) || (65 <=? n) && (n <=? 90)
   || (97 <=? n) && (n <=? 122))%nat.

Definition is_dot (c : ascii) : bool := Ascii.eqb c ".".
Definition is_host_char (c : ascii) : bool :=
  is_alnum c || Ascii.eqb c "-" || is_dot c.
Definition is_domain_char (c : ascii) : bool :=
  is_host_char c || Ascii.eqb c "_".
Definition is_path_char (c : ascii) : bool :=
  is_host_char c || Ascii.eqb c "/".

Definition chars (s : string) : list ascii := list_ascii_of_string s.

Definition domain (s : string) : bool :=
  forallb is_domain_char (chars s) && existsb is_dot (chars s)
  && match chars s with c :: _ => is_alnum c | [] => false end.

Definition strip_scheme (s : string) : option string :=
  if String.prefix "http://" s then Some (String.substring 7 (String.length s - 7) s)
  else if String.prefix "https://" s then Some (String.substring 8 (String.length s - 8) s)
  else None.

Definition url (s : string) : bool :=
  match strip_scheme s with
  | Some rest =>
      forallb is_path_char (chars rest) && existsb is_dot (chars rest)
      && match chars rest with c :: _ => is_alnum c | [] => false end
  | None => false
  end.

Definition validators : Validators :=
  {| validators_url := url; validators_domain := domain |}.

(** A source whose draws are [start, start + step, start + 2 step, ...]. *)
Definition arithmetic (start step : Z) : RandomSource :=
  {| draws := fun i => start + step * Z.of_nat i; cursor := 0 |}.

(** A state with an empty table. *)
Definition fresh_world : World :=
  {| links := LinkDatabase.create_database; random := arithmetic 5 7 |}.

(** A state whose table holds one link, under the code that
    [arithmetic 5 7] generates first. *)
Definition busy_world : World :=
  {| links := [mkLink "fov" "http://example.org" "CKSZ8f" 3 900];
     random := arithmetic 5 7 |}.

(** [busy_world] after two rounds of the allocation loop for codes of
    length 3: the first candidate, ["fov"], is taken. *)
Definition busy_world_after_two_rounds : World :=
  set_random busy_world {| draws := draws (arithmetic 5 7); cursor := 6 |}.

(** [fresh_world] after ["example.com"] has been submitted at time
    [1000]: three draws for the short code, six for the deletion code. *)
Definition created_world : World :=
  {| links := [mkLink "fov" "http://example.com" "CKSZ8f" 0 1000];
     random := {| draws := draws (arithmetic 5 7); cursor := 9 |} |}.

(** A state in which the deletion code that [arithmetic 5 7] generates
    after a three-character short code is already stored. *)
Definition collision_world : World :=
  {| links := [mkLink "abc" "http://example.org" "CKSZ8f" 0 900];
     random := arithmetic 5 7 |}.

(** A state whose table holds every short code of length 1. *)
Definition exhausted_world : World :=
  {| links := map (fun c => mkLink (String c "") "http://example.org"
                                   (String c "") 0 900)
                  (list_ascii_of_string charset);
     random := arithmetic 5 7 |}.

(** A state with two links. *)
Definition two_links_world : World :=
  {| links := [mkLink "fov" "http://example.org" "CKSZ8f" 3 900;
               mkLink "abc" "http://example.com" "xyzXYZ" 0 950];
     random := arithmetic 5 7 |}.

(** [busy_world] after one redirect for ["fov"]. *)
Definition busy_world_clicked : World :=
  set_links busy_world [mkLink "fov" "http://example.org" "CKSZ8f" 4 900].

(** [created_world] after one redirect for ["fov"]. *)
Definition clicked_world : World :=
  set_links created_world [mkLink "fov" "http://example.com" "CKSZ8f" 1 1000].

(** [clicked_world] after ["example.org"] has been submitted at time
    [1001]. *)
Definition second_created_world : World :=
  {| links := [mkLink "fov" "http://example.com" "CKSZ8f" 1 1000;
               mkLink "ovC" "http://example.org" "KSZ8fo" 0 1001];
     random := {| draws := draws (arithmetic 5 7); cursor := 18 |} |}.

(** [two_links_world] with the clicks of ["fov"] at the largest value the
    table can hold. *)
Definition saturated_world : World :=
  {| links := [mkLink "fov" "http://example.org" "CKSZ8f" (2 ^ 63 - 1) 900;
               mkLink "abc" "http://example.com" "xyzXYZ" 0 950];
     random := arithmetic 5 7 |}.

End Sample.


(** ** Vocabulary of the statements *)

(** [w'] is [w] after [n] more draws: same table, same sequence. *)
Definition drawn (n : nat) (w w' : World) : Prop :=
  links w' = links w
  /\ draws (random w') = draws (random w)
  /\ cursor (random w') = (cursor (random w) + n)%nat.

(** A character of the short-code alphabet. *)
Definition in_charset (c : ascii) : Prop := In c (list_ascii_of_string charset).

(** The glyphs the alphabet leaves out as too similar to others. *)
Definition confusable : list ascii := list_ascii_of_string "0O1lIi".

(** A letter or a digit from 2 to 9. *)
Definition letter_or_digit_2_9 (c : ascii) : bool :=
  let n := nat_of_ascii c in
  ((97 <=? n) && (n <=? 122) || (65 <=? n) && (n <=? 90)
   || (50 <=? n) && (n <=? 57))%nat.

(** ASCII letters folded to lower case, to compare two strings up to
    letter case. *)
Definition ascii_lower (c : ascii) : ascii :=
  let n := nat_of_ascii c in
  if ((65 <=? n) && (n <=? 90))%nat then ascii_of_nat (n + 32) else c.

Fixpoint lower (s : string) : string :=
  match s with
  | EmptyString => EmptyString
  | String c s' => String (ascii_lower c) (lower s')
  end.

(** The row [row] after one more click. *)
Definition clicked (row : Link) : Link :=
  {| short_link := short_link row;
     url := url row;
     deletion_id := deletion_id row;
     clicks := clicks row + 1;
     timestamp := timestamp row |}.

(** The state a process starts in when it has just created its database. *)
Definition initial_world (r : RandomSource) : World :=
  {| links := LinkDatabase.create_database; random := r |}.

(** A row as [handle_new_url] makes them and [handle_redirect_url] keeps
    them: a short code of three and a deletion code of six characters of
    the alphabet, a URL that [validators.url] accepts, and a click count
    that is not negative. *)
Definition well_formed_row {V : Validators} (row : Link) : Prop :=
  (String.length (short_link row) = 3%nat
   /\ Forall in_charset (list_ascii_of_string (short_link row)))
  /\ (String.length (deletion_id row) = 6%nat
      /\ Forall in_charset (list_ascii_of_string (deletion_id row)))
  /\ validators_url (url row) = true
  /\ 0 <= clicks row.

(** The position of the first [c] in [l], or the length of [l]. *)
Fixpoint index_of (c : ascii) (l : list ascii) : nat :=
  match l with
  | [] => O
  | a :: l' => if Ascii.eqb a c then O else S (index_of c l')
  end.

(** The raw draws that make [generate_random_code] spell [code]. *)
Definition draws_for (code : string) : RandomSource :=
  {| draws := fun i =>
       Z.of_nat (index_of (nth i (list_ascii_of_string code) "a"%char)
                          (list_ascii_of_string charset));
     cursor := 0 |}.

(** The state [w] once [n] more draws have been consumed. *)
Definition after_draws (n : nat) (w : World) : World :=
  set_random w {| draws := draws (random w);
                  cursor := (cursor (random w) + n)%nat |}.

(** Every row holds integers that fit a SQLite [integer], as the rows of
    a table always do. *)
Definition integers_ok (t : list Link) : Prop :=
  Forall (fun row => LinkDatabase.binds row = true) t.

(** The largest SQLite [integer]. *)
Definition sqlite_max : Z := 2 ^ 63 - 1.

(** * Properties *)

(** ** Strings and lists *)

Lemma get_Some_In (s : string) (n : nat) (c : ascii) :
  String.get n s = Some c -> In c (list_ascii_of_string s).
Proof.
  revert n; induction s as [|a s IH]; intros n H; simpl in *.
  - discriminate.
  - destruct n as [|n].
    + left; congruence.
    + right; eauto.
Qed.

Lemma get_lt_Some (s : string) (n : nat) :
  (n < String.length s)%nat -> exists c, String.get n s = Some c.
Proof.
  revert n; induction s as [|a s IH]; intros n H; simpl in *.
  - lia.
  - destruct n as [|n]; [eauto|]. apply IH; lia.
Qed.

Lemma length_string_of_list_ascii (cs : list ascii) :
  String.length (string_of_list_ascii cs) = List.length cs.
Proof. induction cs; simpl; congruence. Qed.

Lemma NoDup_map_injective {A B : Type} (f : A -> B) (l : list A) (a b : A) :
  NoDup (map f l) -> In a l -> In b l -> f a = f b -> a = b.
Proof.
  induction l as [|x l IH]; simpl; intros ND Ha Hb E; [contradiction|].
  inversion ND as [|? ? Hx ND']; subst.
  destruct Ha as [->|Ha], Hb as [->|Hb]; auto.
  - exfalso; apply Hx; rewrite E; now apply in_map.
  - exfalso; apply Hx; rewrite <- E; now apply in_map.
Qed.

(** ** The monad *)

Lemma bind_Returns {A B : Type} (c : M A) (k : A -> M B) (w w' : World) (a : A) :
  c w = Returns a w' -> bind c k w = k a w'.
Proof. unfold bind; intros ->; reflexivity. Qed.

Lemma bind_inv {A B : Type} (c : M A) (k : A -> M B) (w w2 : World) (b : B) :
  bind c k w = Returns b w2 ->
  exists a w1, c w = Returns a w1 /\ k a w1 = Returns b w2.
Proof.
  unfold bind; destruct (c w) as [a w1| |]; try discriminate; eauto.
Qed.

(** ** The random source and the code generator *)

Lemma drawn_trans (n m : nat) (w1 w2 w3 : World) :
  drawn n w1 w2 -> drawn m w2 w3 -> drawn (n + m) w1 w3.
Proof.
  unfold drawn; intros (L1 & D1 & C1) (L2 & D2 & C2).
  repeat split; try congruence. lia.
Qed.

Lemma random_randint_spec (a b : Z) (w : World) :
  a <= b ->
  exists n w', random_randint a b w = Returns n w'
               /\ a <= n <= b /\ drawn 1 w w'.
Proof.
  intros Hab. unfold random_randint. eexists _, _; split; [reflexivity|].
  split.
  - pose proof (Z.mod_pos_bound (draws (random w) (cursor (random w)))
                                (b - a + 1)) as Hm.
    lia.
  - unfold drawn; simpl. repeat split. lia.
Qed.

Lemma str_getitem_spec (s : string) (i : Z) (w : World) :
  0 <= i < Z.of_nat (String.length s) ->
  exists c, str_getitem s i w = Returns c w
            /\ In c (list_ascii_of_string s).
Proof.
  intros Hi. unfold str_getitem.
  destruct (Z.ltb_spec i 0) as [?|_]; [lia|].
  destruct (Z.leb_spec 0 i) as [_|?]; [|lia].
  destruct (Z.ltb_spec i (Z.of_nat (String.length s))) as [_|?]; [|lia].
  simpl.
  destruct (get_lt_Some s (Z.to_nat i)) as [c Hc]; [lia|].
  rewrite Hc. exists c; split; [reflexivity|]. eapply get_Some_In; eauto.
Qed.

Lemma list_comprehension_spec {A : Type} (P : A -> Prop) (body : M A) :
  (forall w, exists a w', body w = Returns a w' /\ P a /\ drawn 1 w w') ->
  forall n w, exists xs w',
    list_comprehension n body w = Returns xs w'
    /\ List.length xs = n /\ Forall P xs /\ drawn n w w'.
Proof.
  intros Hbody n; induction n as [|n IH]; intros w; simpl.
  - exists [], w. split; [reflexivity|]. split; [reflexivity|].
    split; [constructor|]. unfold drawn. repeat split. lia.
  - destruct (Hbody w) as (a & w1 & E1 & Pa & D1).
    destruct (IH w1) as (xs & w2 & E2 & Len & All & D2).
    exists (a :: xs), w2.
    rewrite (bind_Returns _ _ _ _ _ E1), (bind_Returns _ _ _ _ _ E2).
    split; [reflexivity|]. split; [simpl; congruence|].
    split; [constructor; assumption|].
    apply (drawn_trans 1 n w w1 w2); assumption.
Qed.

Lemma charset_draw (w : World) :
  exists c w',
    (i <- random_randint 0 (Z.of_nat (String.length charset) - 1) ;;
     str_getitem charset i) w = Returns c w'
    /\ in_charset c /\ drawn 1 w w'.
Proof.
  destruct (random_randint_spec 0 (Z.of_nat (String.length charset) - 1) w)
    as (i & w1 & E1 & Hi & D1); [simpl; lia|].
  destruct (str_getitem_spec charset i w1) as (c & E2 & Hc); [lia|].
  exists c, w1. rewrite (bind_Returns _ _ _ _ _ E1). auto.
Qed.

(** [generate_random_code] always returns; it consumes one draw per
    character and leaves the table alone. *)
Lemma generate_random_code_returns (length : Z) (w : World) :
  exists code w',
    generate_random_code length w = Returns code w'
    /\ String.length code = Z.to_nat length
    /\ Forall in_charset (list_ascii_of_string code)
    /\ drawn (Z.to_nat length) w w'.
Proof.
  destruct (list_comprehension_spec in_charset _ charset_draw (Z.to_nat length) w)
    as (cs & w' & E & Len & All & D).
  exists (string_of_list_ascii cs), w'. unfold generate_random_code.
  rewrite (bind_Returns _ _ _ _ _ E). unfold ret.
  rewrite length_string_of_list_ascii, list_ascii_of_string_of_list_ascii.
  auto.
Qed.

Lemma charset_safe (c : ascii) :
  in_charset c -> letter_or_digit_2_9 c = true /\ ~ In c confusable.
Proof.
  intros Hc.
  assert (G : forallb (fun c => letter_or_digit_2_9 c
                                && negb (existsb (Ascii.eqb c) confusable))
                      (list_ascii_of_string charset) = true) by reflexivity.
  rewrite forallb_forall in G. specialize (G c Hc).
  apply andb_true_iff in G as [G1 G2]. split; [assumption|].
  intros Hin. apply negb_true_iff in G2.
  assert (existsb (Ascii.eqb c) confusable = true); [|congruence].
  apply existsb_exists. exists c; split; [assumption|apply Ascii.eqb_refl].
Qed.

Lemma charset_size :
  String.length charset = 56%nat /\ NoDup (list_ascii_of_string charset).
Proof.
  split; [reflexivity|].
  assert (D : forall l : list ascii,
             (fix nodupb (l : list ascii) : bool :=
                match l with
                | [] => true
                | a :: l' => negb (existsb (Ascii.eqb a) l') && nodupb l'
                end) l = true -> NoDup l).
  { induction l as [|a l IH]; intros H; constructor.
    - apply andb_true_iff in H as [H _]. apply negb_true_iff in H.
      intros Hin. assert (existsb (Ascii.eqb a) l = true); [|congruence].
      apply existsb_exists. exists a; split; [assumption|apply Ascii.eqb_refl].
    - apply IH. apply andb_true_iff in H as [_ H]. exact H. }
  apply D. reflexivity.
Qed.

(** C8.  For every length [n], [generate_random_code] returns a string of
    exactly [n] characters, each taken from the alphabet [charset]; the
    alphabet has 56 different characters, all of them letters or digits
    from 2 to 9, and none of them is one of [0 O 1 l I] (nor [i]), so no
    returned code contains any of those. *)
Theorem generate_random_code_safe_alphabet (n : Z) (w : World) :
  0 <= n ->
  exists code w',
    generate_random_code n w = Returns code w'
    /\ Z.of_nat (String.length code) = n
    /\ Forall in_charset (list_ascii_of_string code)
    /\ Forall (fun c => letter_or_digit_2_9 c = true /\ ~ In c confusable)
              (list_ascii_of_string code)
    /\ String.length charset = 56%nat
    /\ NoDup (list_ascii_of_string charset)
    /\ links w' = links w.
Proof.
  intros Hn.
  destruct (generate_random_code_returns n w) as (code & w' & E & Len & All & D).
  exists code, w'. split; [exact E|]. split; [lia|]. split; [exact All|].
  split.
  - eapply Forall_impl; [|exact All]. intros c Hc. now apply charset_safe.
  - destruct charset_size as [Sz Nd]. destruct D as [L _]. auto.
Qed.

Lemma generate_random_code_safe_alphabet_witness :
  0 <= 6 /\
  exists code w',
    generate_random_code 6 Sample.fresh_world = Returns code w'
    /\ Z.of_nat (String.length code) = 6
    /\ Forall in_charset (list_ascii_of_string code)
    /\ Forall (fun c => letter_or_digit_2_9 c = true /\ ~ In c confusable)
              (list_ascii_of_string code)
    /\ String.length charset = 56%nat
    /\ NoDup (list_ascii_of_string charset)
    /\ links w' = links Sample.fresh_world.
Proof.
  split; [lia|]. apply (generate_random_code_safe_alphabet 6 Sample.fresh_world). lia.
Defined.

(** A negative length gives an empty [range], hence the empty code. *)
Lemma generate_random_code_negative (n : Z) (w : World) :
  n <= 0 -> generate_random_code n w = Returns "" w.
Proof.
  intros Hn. unfold generate_random_code.
  replace (Z.to_nat n) with O by lia. reflexivity.
Qed.

(** ** The table *)

Section Table.

Import LinkDatabase.

Lemma where_short_link_true (k : string) (r : Link) :
  where_short_link k r = true <-> short_link r = k.
Proof. unfold where_short_link. apply String.eqb_eq. Qed.

Lemma where_short_link_false (k : string) (r : Link) :
  where_short_link k r = false <-> short_link r <> k.
Proof. unfold where_short_link. apply String.eqb_neq. Qed.

Lemma find_where_In (k : string) (t : list Link) (l : Link) :
  find (where_short_link k) t = Some l -> In l t /\ short_link l = k.
Proof.
  intros H. apply find_some in H as [H1 H2]. split; [assumption|].
  now apply where_short_link_true.
Qed.

Lemma find_where_None (k : string) (t : list Link) :
  find (where_short_link k) t = None <-> ~ In k (map short_link t).
Proof.
  induction t as [|r t IH]; simpl.
  - tauto.
  - destruct (where_short_link k r) eqn:E.
    + apply where_short_link_true in E. split; [discriminate|].
      intros H; exfalso; apply H; now left.
    + apply where_short_link_false in E. rewrite IH. tauto.
Qed.

Lemma count_where_find (k : string) (t : list Link) :
  (0 <? Z.of_nat (List.length (filter (where_short_link k) t)))
  = match find (where_short_link k) t with Some _ => true | None => false end.
Proof.
  induction t as [|r t IH]; simpl; [reflexivity|].
  destruct (where_short_link k r); [|exact IH].
  simpl List.length. apply Z.ltb_lt. lia.
Qed.

Lemma find_map_keeping_key (f : Link -> Link) (k : string) (t : list Link) :
  (forall r, short_link (f r) = short_link r) ->
  find (where_short_link k) (map f t) = option_map f (find (where_short_link k) t).
Proof.
  intros Hf. induction t as [|r t IH]; simpl; [reflexivity|].
  unfold where_short_link at 1. rewrite Hf. fold (where_short_link k r).
  destruct (where_short_link k r); [reflexivity|exact IH].
Qed.

Lemma find_filter_other_key (k k' : string) (t : list Link) :
  find (where_short_link k)
       (filter (fun r => negb (where_short_link k' r)) t)
  = if String.eqb k k' then None else find (where_short_link k) t.
Proof.
  induction t as [|r t IH]; simpl.
  - now destruct (String.eqb k k').
  - destruct (where_short_link k' r) eqn:E'; simpl.
    + rewrite IH. destruct (String.eqb_spec k k') as [->|N]; [reflexivity|].
      apply where_short_link_true in E'.
      assert (where_short_link k r = false) as ->; [|reflexivity].
      apply where_short_link_false. congruence.
    + destruct (where_short_link k r) eqn:E.
      * apply where_short_link_true in E. apply where_short_link_false in E'.
        destruct (String.eqb_spec k k') as [->|N]; [contradiction|reflexivity].
      * exact IH.
Qed.

Lemma find_app_one (p : Link -> bool) (t : list Link) (x : Link) :
  find p (t ++ [x])
  = match find p t with
    | Some l => Some l
    | None => if p x then Some x else None
    end.
Proof.
  induction t as [|r t IH]; simpl; [reflexivity|].
  destruct (p r); [reflexivity|exact IH].
Qed.

End Table.

(** ** The methods of [LinkDatabase] *)

Section Methods.

Import LinkDatabase.

Lemma get_link_from_short_find (k : string) (w : World) :
  get_link_from_short k w = Returns (find (where_short_link k) (links w)) w.
Proof. reflexivity. Qed.

Lemma is_shortcode_in_db_find (k : string) (w : World) :
  is_shortcode_in_db k w
  = Returns (match find (where_short_link k) (links w) with
             | Some _ => true
             | None => false
             end) w.
Proof. unfold is_shortcode_in_db. now rewrite count_where_find. Qed.

(** The update of the row read under key [k] succeeds as soon as no row
    under another key carries the same [deletion_id]. *)
Lemma update_link_returns (link : Link) (w : World) :
  binds link = true ->
  (forall r, In r (links w) -> deletion_id r = deletion_id link ->
             short_link r = short_link link) ->
  update_link link w
  = Returns tt
      (set_links w
         (map (fun row =>
                 if where_short_link (short_link link) row
                 then mkLink (short_link row) (url link) (deletion_id link)
                             (clicks link) (timestamp link)
                 else row)
              (links w))).
Proof.
  intros Hb Hown. unfold update_link. rewrite Hb. cbn [negb].
  assert (E : existsb
                (fun row => negb (where_short_link (short_link link) row)
                            && String.eqb (deletion_id row) (deletion_id link))
                (links w) = false).
  { apply not_true_is_false. intros H.
    apply existsb_exists in H as (r & Hin & Hr).
    apply andb_true_iff in Hr as [Hk Hd].
    apply negb_true_iff, where_short_link_false in Hk.
    apply String.eqb_eq in Hd. auto. }
  rewrite E, andb_false_r. reflexivity.
Qed.

(** In a table that satisfies its schema, the row found under a key is the
    only one with its [deletion_id] and the only one with its key. *)
Lemma schema_ok_own_token (t : list Link) (k : string) (l : Link) :
  schema_ok t -> find (where_short_link k) t = Some l ->
  forall r, In r t -> deletion_id r = deletion_id l -> short_link r = k.
Proof.
  intros [_ Nd] Hf r Hin Hd. apply find_where_In in Hf as [Hl Hk].
  rewrite (NoDup_map_injective deletion_id t r l Nd Hin Hl Hd). exact Hk.
Qed.

Lemma schema_ok_own_key (t : list Link) (k : string) (l : Link) :
  schema_ok t -> find (where_short_link k) t = Some l ->
  forall r, In r t -> short_link r = k -> r = l.
Proof.
  intros [Nk _] Hf r Hin Hk. apply find_where_In in Hf as [Hl Hk'].
  apply (NoDup_map_injective short_link t r l Nk Hin Hl). congruence.
Qed.

(** [get_valid_short_link] only reads the table and draws; what it returns
    is not a key of the table. *)
Lemma get_valid_short_link_inv (fuel : nat) (length : Z) (w w' : World) (code : string) :
  get_valid_short_link fuel length w = Returns code w' ->
  find (where_short_link code) (links w) = None
  /\ String.length code = Z.to_nat length
  /\ Forall in_charset (list_ascii_of_string code)
  /\ exists n, drawn n w w'.
Proof.
  revert w; induction fuel as [|fuel IH]; intros w H; simpl in H.
  - discriminate.
  - destruct (generate_random_code_returns length w)
      as (cand & w1 & E & Len & All & D).
    rewrite (bind_Returns _ _ _ _ _ E) in H.
    rewrite (bind_Returns _ _ _ _ _ (is_shortcode_in_db_find cand w1)) in H.
    destruct D as (L & Dr & Cu).
    destruct (find (where_short_link cand) (links w1)) eqn:F; simpl in H.
    + apply IH in H as (F' & Len' & All' & n & D').
      rewrite L in F'. repeat (split; [assumption|]).
      exists (Z.to_nat length + n)%nat.
      apply (drawn_trans _ _ w w1 w'); [unfold drawn; auto|assumption].
    + unfold ret in H. injection H as <- <-. rewrite L in F.
      repeat (split; [assumption|]).
      exists (Z.to_nat length). unfold drawn; auto.
Qed.

(** More fuel does not change an answer already given. *)
Lemma get_valid_short_link_fuel_mono (fuel fuel' : nat) (length : Z)
    (w w' : World) (code : string) :
  (fuel <= fuel')%nat ->
  get_valid_short_link fuel length w = Returns code w' ->
  get_valid_short_link fuel' length w = Returns code w'.
Proof.
  revert fuel' w; induction fuel as [|fuel IH]; intros fuel' w Hle H; simpl in H.
  - discriminate.
  - destruct fuel' as [|fuel']; [lia|]. simpl.
    destruct (generate_random_code_returns length w) as (cand & w1 & E & _).
    rewrite (bind_Returns _ _ _ _ _ E) in H.
    rewrite (bind_Returns _ _ _ _ _ E).
    rewrite (bind_Returns _ _ _ _ _ (is_shortcode_in_db_find cand w1)) in H.
    rewrite (bind_Returns _ _ _ _ _ (is_shortcode_in_db_find cand w1)).
    destruct (find (where_short_link cand) (links w1)); simpl in H |- *.
    + apply IH; [lia|assumption].
    + assumption.
Qed.

(** The loop never raises: with any fuel it either returns or is still
    running. *)
Lemma get_valid_short_link_no_exception (fuel : nat) (length : Z) (w w' : World) (e : exn) :
  get_valid_short_link fuel length w <> Raises e w'.
Proof.
  revert w; induction fuel as [|fuel IH]; intros w; simpl.
  - discriminate.
  - destruct (generate_random_code_returns length w) as (cand & w1 & E & _).
    rewrite (bind_Returns _ _ _ _ _ E).
    rewrite (bind_Returns _ _ _ _ _ (is_shortcode_in_db_find cand w1)).
    destruct (find (where_short_link cand) (links w1)); simpl.
    + apply IH.
    + discriminate.
Qed.

(** The loop ends as soon as a candidate is free: if the candidate
    generated after [k] failed rounds is not in the table, [S k] rounds of
    fuel are enough. *)
Lemma get_valid_short_link_terminates (k : nat) (length : Z) (w : World) :
  (exists wk code w',
      drawn (k * Z.to_nat length) w wk
      /\ generate_random_code length wk = Returns code w'
      /\ find (where_short_link code) (links w) = None) ->
  exists code w', get_valid_short_link (S k) length w = Returns code w'.
Proof.
  revert w; induction k as [|k IH]; intros w (wk & code & w' & D & G & F).
  - simpl in D. destruct (generate_random_code_returns length w)
      as (cand & w1 & E & _ & _ & D1).
    simpl. rewrite (bind_Returns _ _ _ _ _ E).
    rewrite (bind_Returns _ _ _ _ _ (is_shortcode_in_db_find cand w1)).
    destruct (find (where_short_link cand) (links w1)) eqn:F1; simpl.
    + exfalso.
      (* the first candidate is the code of the hypothesis *)
      assert (wk = w) as ->.
      { destruct D as (L & Dr & Cu). destruct wk as [lk [dk ck]], w as [l0 [d0 c0]].
        simpl in *. subst. f_equal. f_equal. lia. }
      rewrite E in G. injection G as <- <-. destruct D1 as (L1 & _).
      rewrite L1 in F1. congruence.
    + eauto.
  - destruct (generate_random_code_returns length w)
      as (cand & w1 & E & _ & _ & D1).
    change (get_valid_short_link (S (S k)) length w)
      with ((candidate <- generate_random_code length ;;
             taken <- is_shortcode_in_db candidate ;;
             if negb taken then ret candidate
             else get_valid_short_link (S k) length) w).
    rewrite (bind_Returns _ _ _ _ _ E).
    rewrite (bind_Returns _ _ _ _ _ (is_shortcode_in_db_find cand w1)).
    destruct (find (where_short_link cand) (links w1)) eqn:F1;
      [|simpl; unfold ret; eauto].
    cbv beta iota. change (negb true) with false. cbv iota.
    apply IH. exists wk, code, w'. split; [|split; [exact G|]].
    + destruct D as (L & Dr & Cu), D1 as (L1 & Dr1 & Cu1).
      unfold drawn. repeat split; try congruence.
      rewrite Cu, Cu1. simpl. lia.
    + destruct D1 as (L1 & _). now rewrite L1.
Qed.

End Methods.

(** ** The schema is an invariant of the writing statements *)

Section Schema.

Import LinkDatabase.

Lemma NoDup_map_filter {A B : Type} (f : A -> B) (p : A -> bool) (t : list A) :
  NoDup (map f t) -> NoDup (map f (filter p t)).
Proof.
  induction t as [|x t IH]; simpl; intros H; [constructor|].
  inversion H as [|? ? Hx H']; subst.
  destruct (p x); simpl; auto.
  constructor; auto.
  intros Hin. apply Hx. apply in_map_iff in Hin as (y & Ey & Hy).
  apply filter_In in Hy as [Hy _]. apply in_map_iff. eauto.
Qed.

Lemma NoDup_map_app_one {A B : Type} (f : A -> B) (t : list A) (x : A) :
  NoDup (map f t) -> ~ In (f x) (map f t) -> NoDup (map f (t ++ [x])).
Proof.
  intros Nd Hx. rewrite map_app. simpl.
  apply NoDup_app; [assumption|repeat constructor; intros []|].
  intros y Hy [<-|[]]. contradiction.
Qed.

Lemma schema_ok_create_database : schema_ok create_database.
Proof. split; constructor. Qed.

Lemma schema_ok_map (f : Link -> Link) (t : list Link) :
  (forall r, In r t -> short_link (f r) = short_link r
                       /\ deletion_id (f r) = deletion_id r) ->
  schema_ok t -> schema_ok (map f t).
Proof.
  intros Hf [Nk Nd]. unfold schema_ok. rewrite !map_map.
  rewrite (map_ext_in (fun r => short_link (f r)) short_link),
          (map_ext_in (fun r => deletion_id (f r)) deletion_id); auto.
  - intros r Hr. now apply Hf.
  - intros r Hr. now apply Hf.
Qed.

Lemma schema_ok_filter (p : Link -> bool) (t : list Link) :
  schema_ok t -> schema_ok (filter p t).
Proof. intros [Nk Nd]. split; now apply NoDup_map_filter. Qed.

Lemma schema_ok_add (t : list Link) (x : Link) :
  existsb (fun row => String.eqb (short_link row) (short_link x)
                      || String.eqb (deletion_id row) (deletion_id x)) t = false ->
  schema_ok t -> schema_ok (t ++ [x]).
Proof.
  intros Hx [Nk Nd].
  assert (Free : forall r, In r t ->
            short_link r <> short_link x /\ deletion_id r <> deletion_id x).
  { intros r Hr.
    assert (E : String.eqb (short_link r) (short_link x)
                || String.eqb (deletion_id r) (deletion_id x) = false).
    { apply not_true_is_false. intros T.
      assert (existsb (fun row => String.eqb (short_link row) (short_link x)
                      || String.eqb (deletion_id row) (deletion_id x)) t = true);
        [|congruence].
      apply existsb_exists. eauto. }
    apply orb_false_iff in E as [E1 E2].
    split; now apply String.eqb_neq. }
  split; apply NoDup_map_app_one; auto.
  - intros Hin. apply in_map_iff in Hin as (r & Er & Hr).
    now destruct (Free r Hr).
  - intros Hin. apply in_map_iff in Hin as (r & Er & Hr).
    now destruct (Free r Hr).
Qed.

End Schema.

(** ** What each handler does to the state *)

Lemma bind_Raises_inv {A B : Type} (c : M A) (k : A -> M B) (w w2 : World) (e : exn) :
  bind c k w = Raises e w2 ->
  c w = Raises e w2 \/ exists a w1, c w = Returns a w1 /\ k a w1 = Raises e w2.
Proof.
  unfold bind; destruct (c w) as [a w1|e1 w1|]; intros H.
  - right. exists a, w1. split; [reflexivity|exact H].
  - left. injection H as -> ->. reflexivity.
  - discriminate.
Qed.

Section HandlerEffects.

Import LinkDatabase.
Context {V : Validators}.

Lemma handle_redirect_url_found (k : string) (l : Link) (w : World) :
  find (where_short_link k) (links w) = Some l ->
  binds (clicked l) = true ->
  (forall r, In r (links w) -> deletion_id r = deletion_id l -> short_link r = k) ->
  handle_redirect_url (Some k) w
  = Returns (redirect (url l))
      (set_links w
         (map (fun row =>
                 if where_short_link k row
                 then mkLink (short_link row) (url l) (deletion_id l)
                             (clicks l + 1) (timestamp l)
                 else row)
              (links w))).
Proof.
  intros Hf Hb Hown. unfold handle_redirect_url.
  rewrite (bind_Returns _ _ _ _ _ (get_link_from_short_find k w)), Hf.
  destruct (find_where_In _ _ _ Hf) as [_ Hk].
  erewrite bind_Returns; [reflexivity|].
  rewrite update_link_returns; simpl; [now rewrite Hk|exact Hb|].
  intros r Hr Hd. rewrite Hk. auto.
Qed.

(** A redirect for a link whose row cannot take one more click ends in
    [OverflowError] and changes nothing. *)
Lemma handle_redirect_url_overflow (k : string) (l : Link) (w : World) :
  find (where_short_link k) (links w) = Some l ->
  binds (clicked l) = false ->
  handle_redirect_url (Some k) w = Raises OverflowError w.
Proof.
  intros Hf Hb. unfold handle_redirect_url.
  rewrite (bind_Returns _ _ _ _ _ (get_link_from_short_find k w)), Hf.
  unfold bind, update_link. fold (clicked l). now rewrite Hb.
Qed.

Lemma handle_redirect_url_missing (k : string) (w : World) :
  find (where_short_link k) (links w) = None ->
  handle_redirect_url (Some k) w = Returns unknown_short_code_view w.
Proof.
  intros Hf. unfold handle_redirect_url.
  now rewrite (bind_Returns _ _ _ _ _ (get_link_from_short_find k w)), Hf.
Qed.

(** Whatever the table, a redirect request leaves it as it was or rewrites
    the rows under its key, keeping their keys. *)
Lemma handle_redirect_url_effect (k : string) (w : World) :
  (exists r, handle_redirect_url (Some k) w = Returns r w)
  \/ (exists e, handle_redirect_url (Some k) w = Raises e w)
  \/ (exists l f,
        find (where_short_link k) (links w) = Some l
        /\ handle_redirect_url (Some k) w
           = Returns (redirect (url l)) (set_links w (map f (links w)))
        /\ forall row, short_link (f row) = short_link row
                       /\ (short_link row <> k -> f row = row)).
Proof.
  unfold handle_redirect_url.
  rewrite (bind_Returns _ _ _ _ _ (get_link_from_short_find k w)).
  destruct (find (where_short_link k) (links w)) as [l|] eqn:Hf.
  - destruct (find_where_In _ _ _ Hf) as [_ Hk].
    unfold bind, update_link. simpl short_link. simpl deletion_id.
    match goal with |- context [if negb ?b then _ else _] => destruct b end;
      cbn [negb]; [|right; left; eauto].
    match goal with |- context [if ?b then _ else _] => destruct b end.
    + right; left; eauto.
    + right; right. eexists l, _. split; [reflexivity|]. split; [reflexivity|].
      intros row; simpl. rewrite Hk.
      destruct (where_short_link k row) eqn:E; simpl; split; auto.
      intros N. apply where_short_link_true in E. contradiction.
  - left; eauto.
Qed.

Lemma handle_deletion_request_cases (code token : string) (w : World) :
  match find (where_short_link code) (links w) with
  | None =>
      handle_deletion_request code token w = Returns shortcode_not_found_text w
  | Some l =>
      if String.eqb token (deletion_id l)
      then handle_deletion_request code token w
           = Returns link_deleted_view
               (set_links w (filter (fun r => negb (where_short_link code r))
                                    (links w)))
      else handle_deletion_request code token w
           = Returns invalid_deletion_code_view w
  end.
Proof.
  unfold handle_deletion_request.
  rewrite (bind_Returns _ _ _ _ _ (get_link_from_short_find code w)).
  destruct (find (where_short_link code) (links w)) as [l|] eqn:Hf; [|reflexivity].
  destruct (find_where_In _ _ _ Hf) as [_ Hk].
  destruct (String.eqb token (deletion_id l)); [|reflexivity].
  unfold bind, delete_link, ret. now rewrite Hk.
Qed.

Lemma add_link_Returns_inv (link : Link) (w w' : World) (a : unit) :
  add_link link w = Returns a w' ->
  binds link = true
  /\ existsb (fun row => String.eqb (short_link row) (short_link link)
                        || String.eqb (deletion_id row) (deletion_id link))
             (links w) = false
  /\ w' = set_links w (links w ++ [link]).
Proof.
  unfold add_link. destruct (binds link); cbn [negb]; [|discriminate].
  match goal with |- context [if ?b then _ else _] => destruct b end;
    [discriminate|].
  intros H. injection H as _ <-. auto.
Qed.

Lemma add_link_Raises_inv (link : Link) (w w' : World) (e : exn) :
  add_link link w = Raises e w' ->
  w' = w
  /\ ((e = OverflowError /\ binds link = false)
      \/ (e = IntegrityError /\ binds link = true
          /\ existsb (fun row => String.eqb (short_link row) (short_link link)
                                || String.eqb (deletion_id row) (deletion_id link))
                     (links w) = true)).
Proof.
  unfold add_link. destruct (binds link); cbn [negb].
  - match goal with |- context [if ?b then _ else _] => destruct b end;
      [|discriminate].
    intros H. injection H as <- <-. auto.
  - intros H. injection H as <- <-. auto.
Qed.

Lemma handle_new_url_inv (fuel : nat) (now : Z) (field : string)
    (w w' : World) (r : Response) :
  handle_new_url fuel now field w = Returns r w' ->
  (format_url (strip field) = MinusOne
   /\ r = invalid_url_view (strip field) /\ w' = w)
  \/ (exists u code tok,
        format_url (strip field) = Url u
        /\ r = new_url_view code tok
        /\ links w' = (links w ++ [mkLink code u tok 0 now])%list
        /\ find (where_short_link code) (links w) = None
        /\ (forall row, In row (links w) -> deletion_id row <> tok)
        /\ (String.length code = 3%nat /\ Forall in_charset (list_ascii_of_string code))
        /\ (String.length tok = 6%nat /\ Forall in_charset (list_ascii_of_string tok))).
Proof.
  unfold handle_new_url. destruct (format_url (strip field)) as [u|] eqn:F.
  - intros H. right.
    apply bind_inv in H as (code & w1 & G & H).
    apply get_valid_short_link_inv in G as (Free & Len & All & n & (L1 & _)).
    apply bind_inv in H as (tok & w2 & T & H).
    destruct (generate_random_code_returns 6 w1) as (tok' & w2' & T' & LenT & AllT & (L2 & _)).
    rewrite T in T'. injection T' as <- <-.
    apply bind_inv in H as ([] & w3 & A & H).
    unfold ret in H. injection H as <- <-.
    apply add_link_Returns_inv in A as (_ & X & ->). cbn [short_link deletion_id] in X.
    exists u, code, tok. simpl. rewrite L2, L1.
    repeat (split; [first [reflexivity|assumption]|]).
    split; [|split; split; assumption].
    intros row Hin Hd.
    assert (existsb (fun row0 => String.eqb (short_link row0) code
                                 || String.eqb (deletion_id row0) tok)
                    (links w2) = true); [|congruence].
    apply existsb_exists. exists row. rewrite L2, L1. split; [assumption|].
    apply orb_true_iff; right. now apply String.eqb_eq.
  - unfold ret. intros H. injection H as <- <-. left; auto.
Qed.

Lemma handle_new_url_raises (fuel : nat) (now : Z) (field : string)
    (w w' : World) (e : exn) :
  handle_new_url fuel now field w = Raises e w' -> links w' = links w.
Proof.
  unfold handle_new_url. destruct (format_url (strip field)) as [u|];
    [|discriminate].
  intros H. apply bind_Raises_inv in H as [H|(code & w1 & G & H)].
  - now apply get_valid_short_link_no_exception in H.
  - apply get_valid_short_link_inv in G as (_ & _ & _ & n & (L1 & _)).
    destruct (generate_random_code_returns 6 w1) as (tok & w2 & T & _ & _ & (L2 & _)).
    rewrite (bind_Returns _ _ _ _ _ T) in H.
    apply bind_Raises_inv in H as [H|(a & w3 & _ & H)]; [|discriminate].
    apply add_link_Raises_inv in H as (-> & _). congruence.
Qed.

(** A creation that succeeds has stored its time: the time fits a SQLite
    [integer]. *)
Lemma handle_new_url_time_binds (fuel : nat) (now : Z) (field : string)
    (w w' : World) (code tok : string) :
  handle_new_url fuel now field w = Returns (new_url_view code tok) w' ->
  sqlite_integer now = true.
Proof.
  unfold handle_new_url. destruct (format_url (strip field)) as [u|];
    [|discriminate].
  intros H. apply bind_inv in H as (c & w1 & _ & H).
  apply bind_inv in H as (t & w2 & _ & H).
  apply bind_inv in H as (a & w3 & A & _).
  apply add_link_Returns_inv in A as (B & _). exact B.
Qed.

End HandlerEffects.

(** ** Short-code allocation *)

Section Allocation.

Import LinkDatabase.

(** C1.  Whatever the state, a code returned by [get_valid_short_link] is
    one for which [is_shortcode_in_db] answers [False], both in the state
    the call started from and in the state it returns in: the candidate is
    absent from the [links] table at the moment it is returned. *)
Theorem get_valid_short_link_unused (fuel : nat) (length : Z)
    (w w' : World) (code : string) :
  get_valid_short_link fuel length w = Returns code w' ->
  is_shortcode_in_db code w = Returns false w
  /\ is_shortcode_in_db code w' = Returns false w'
  /\ get_link_from_short code w' = Returns None w'
  /\ ~ In code (map short_link (links w')).
Proof.
  intros H.
  apply get_valid_short_link_inv in H as (Free & _ & _ & n & (L & _)).
  rewrite !is_shortcode_in_db_find, get_link_from_short_find, L, Free.
  repeat (split; [reflexivity|]). now apply find_where_None.
Qed.

Lemma get_valid_short_link_unused_witness :
  get_valid_short_link 2 3 Sample.busy_world
  = Returns "CKS" Sample.busy_world_after_two_rounds
  /\ is_shortcode_in_db "fov" Sample.busy_world = Returns true Sample.busy_world
  /\ is_shortcode_in_db "CKS" Sample.busy_world_after_two_rounds
     = Returns false Sample.busy_world_after_two_rounds.
Proof.
  split; [reflexivity|]. split; [reflexivity|].
  apply (get_valid_short_link_unused 2 3 Sample.busy_world
           Sample.busy_world_after_two_rounds "CKS").
  reflexivity.
Defined.

End Allocation.

(** ** URL normalisation *)

Section Normalisation.

Context {V : Validators}.

(** C5.  An input that [validators.url] accepts is returned unchanged. *)
Theorem format_url_valid_url_unchanged (u : string) :
  validators_url u = true -> format_url u = Url u.
Proof. intros H. unfold format_url. now rewrite H. Qed.

(** C6, as amended.  An input that [validators.url] rejects and
    [validators.domain] accepts is returned with [http://] in front when
    the prefixed string passes [validators.url]; when it does not, the
    input is rejected with [-1]. *)
Theorem format_url_bare_domain (u : string) :
  validators_url u = false ->
  validators_domain u = true ->
  format_url u
  = if validators_url ("http://" ++ u) then Url ("http://" ++ u) else MinusOne.
Proof. intros H1 H2. unfold format_url. now rewrite H1, H2. Qed.

(** C7.  An input that neither [validators.url] nor [validators.domain]
    accepts is rejected: [format_url] answers [-1], no URL string, and
    [handle_new_url] answers with the invalid-URL page, leaving the state
    as it was. *)
Theorem format_url_rejects (u : string) :
  validators_url u = false ->
  validators_domain u = false ->
  format_url u = MinusOne
  /\ (forall s, format_url u <> Url s)
  /\ forall fuel now field w,
       strip field = u ->
       handle_new_url fuel now field w = Returns (invalid_url_view u) w.
Proof.
  intros H1 H2.
  assert (E : format_url u = MinusOne) by (unfold format_url; now rewrite H1, H2).
  split; [exact E|]. split; [rewrite E; discriminate|].
  intros fuel now field w <-. unfold handle_new_url. now rewrite E.
Qed.

End Normalisation.

Lemma format_url_valid_url_unchanged_witness :
  @validators_url Sample.validators "https://example.com/a/b" = true
  /\ @format_url Sample.validators "https://example.com/a/b"
     = Url "https://example.com/a/b".
Proof.
  split; [reflexivity|].
  apply (@format_url_valid_url_unchanged Sample.validators). reflexivity.
Defined.

(** C6, as the specification states it, does not hold: a validator pair
    may accept ["a_b.com"] as a domain and still reject
    ["http://a_b.com"] as a URL, and then [format_url] answers [-1]. *)
Lemma format_url_bare_domain_not_always_prefixed :
  ~ (forall (V : Validators) (u : string),
        validators_url u = false ->
        validators_domain u = true ->
        format_url u = Url ("http://" ++ u)).
Proof.
  intros H. specialize (H Sample.validators "a_b.com" eq_refl eq_refl).
  discriminate H.
Qed.

Lemma format_url_bare_domain_witness :
  @validators_url Sample.validators "example.com" = false
  /\ @validators_domain Sample.validators "example.com" = true
  /\ @format_url Sample.validators "example.com" = Url "http://example.com".
Proof.
  split; [reflexivity|]. split; [reflexivity|].
  rewrite (@format_url_bare_domain Sample.validators "example.com");
    reflexivity.
Defined.

Lemma format_url_rejects_witness :
  @validators_url Sample.validators "not a url" = false
  /\ @validators_domain Sample.validators "not a url" = false
  /\ @format_url Sample.validators "not a url" = MinusOne
  /\ @handle_new_url Sample.validators 1 1000 "  not a url " Sample.fresh_world
     = Returns (invalid_url_view "not a url") Sample.fresh_world.
Proof.
  split; [reflexivity|]. split; [reflexivity|].
  destruct (@format_url_rejects Sample.validators "not a url" eq_refl eq_refl)
    as (E & _ & H).
  split; [exact E|]. apply H. reflexivity.
Defined.

(** ** Resolution and deletion *)

Section Lifecycle.

Import LinkDatabase.

Lemma get_link_from_short_inv (k : string) (w w' : World) (o : option Link) :
  get_link_from_short k w = Returns o w' ->
  find (where_short_link k) (links w) = o /\ w' = w.
Proof. unfold get_link_from_short. intros H. injection H as <- <-. auto. Qed.

Lemma sqlite_integer_spec (z : Z) :
  sqlite_integer z = true
  <-> - 9223372036854775808 <= z <= 9223372036854775807.
Proof.
  unfold sqlite_integer. rewrite andb_true_iff, !Z.leb_le.
  change (2 ^ 63) with 9223372036854775808. lia.
Qed.

(** A stored row whose clicks are below the largest SQLite [integer] can
    take one more click. *)
Lemma clicked_binds (t : list Link) (k : string) (l : Link) :
  integers_ok t ->
  find (where_short_link k) t = Some l ->
  clicks l < sqlite_max ->
  binds (clicked l) = true.
Proof.
  intros Int Hf Hc. destruct (find_where_In _ _ _ Hf) as [Hin _].
  unfold integers_ok in Int. rewrite Forall_forall in Int.
  specialize (Int l Hin). unfold binds in *. simpl.
  apply andb_true_iff in Int as [Ic It]. rewrite It, andb_true_r.
  apply sqlite_integer_spec in Ic. apply sqlite_integer_spec.
  unfold sqlite_max in Hc. change (2 ^ 63) with 9223372036854775808 in Hc. lia.
Qed.

(** In a table that satisfies its schema, a redirect rewrites the one row
    under the key into the same row with one more click. *)
Lemma handle_redirect_url_clicked (w : World) (code : string) (l : Link) :
  schema_ok (links w) ->
  binds (clicked l) = true ->
  find (where_short_link code) (links w) = Some l ->
  handle_redirect_url (Some code) w
  = Returns (redirect (url l))
      (set_links w
         (map (fun row => if where_short_link code row then clicked row else row)
              (links w))).
Proof.
  intros Ok Hb Hf.
  rewrite (handle_redirect_url_found code l w Hf Hb (schema_ok_own_token _ _ _ Ok Hf)).
  do 2 f_equal. apply map_ext_in. intros r Hr.
  destruct (where_short_link code r) eqn:E; [|reflexivity].
  apply where_short_link_true in E.
  now rewrite (schema_ok_own_key _ _ _ Ok Hf r Hr E).
Qed.

Lemma find_clicked (code k : string) (t : list Link) :
  find (where_short_link k)
       (map (fun row => if where_short_link code row then clicked row else row) t)
  = if String.eqb k code
    then option_map clicked (find (where_short_link k) t)
    else find (where_short_link k) t.
Proof.
  rewrite find_map_keeping_key.
  2:{ intros r. now destruct (where_short_link code r). }
  destruct (find (where_short_link k) t) as [l|] eqn:Hf;
    [|now destruct (String.eqb k code)].
  destruct (find_where_In _ _ _ Hf) as [_ Hk]. simpl.
  unfold where_short_link at 1. rewrite Hk.
  now destruct (String.eqb k code).
Qed.

(** C2.  In a table that satisfies its schema and holds SQLite integers,
    a redirect request for a short code that is present, with a click
    count below the largest SQLite integer, answers with a redirect to the
    stored URL and leaves the link stored with its click count one higher
    (the value the statistics page then shows); for a short code that is
    absent it answers with the unknown-short-code page and leaves the
    state as it was. *)
Theorem handle_redirect_url_counts_one_click (w : World) (code : string) :
  schema_ok (links w) ->
  integers_ok (links w) ->
  (forall l,
      get_link_from_short code w = Returns (Some l) w ->
      clicks l < sqlite_max ->
      exists w',
        handle_redirect_url (Some code) w = Returns (redirect (url l)) w'
        /\ get_link_from_short code w' = Returns (Some (clicked l)) w'
        /\ clicks (clicked l) = clicks l + 1
        /\ get_statistics_page code w'
           = Returns (statistics_view code (timestamp l) (clicks l + 1)) w')
  /\ (get_link_from_short code w = Returns None w ->
      handle_redirect_url (Some code) w = Returns unknown_short_code_view w).
Proof.
  intros Ok Int. split.
  - intros l H Hc. apply get_link_from_short_inv in H as [Hf _].
    pose proof (clicked_binds _ _ _ Int Hf Hc) as Hb.
    eexists. split; [exact (handle_redirect_url_clicked w code l Ok Hb Hf)|].
    assert (F : find (where_short_link code)
                     (links (set_links w
                        (map (fun row => if where_short_link code row
                                         then clicked row else row) (links w))))
                = Some (clicked l)).
    { simpl. now rewrite find_clicked, String.eqb_refl, Hf. }
    split; [now rewrite get_link_from_short_find, F|].
    split; [reflexivity|].
    unfold get_statistics_page.
    rewrite (bind_Returns _ _ _ _ _ (get_link_from_short_find code _)), F.
    reflexivity.
  - intros H. apply get_link_from_short_inv in H as [Hf _].
    now apply handle_redirect_url_missing.
Qed.

(** C9.  In a table that satisfies its schema and holds SQLite integers,
    the redirect for a stored link with a click count below the largest
    SQLite integer succeeds and
    changes nothing but the click count of the resolved link: the table
    afterwards is the table before with that one row clicked, so the row
    keeps its [short_link], [url], [deletion_id] and [timestamp], every
    other short code finds exactly the link it found before, and the
    random source is untouched. *)
Theorem handle_redirect_url_frame (w : World) (code : string) (l : Link) :
  schema_ok (links w) ->
  integers_ok (links w) ->
  get_link_from_short code w = Returns (Some l) w ->
  clicks l < sqlite_max ->
  exists w' l',
    handle_redirect_url (Some code) w = Returns (redirect (url l)) w'
    /\ links w'
       = map (fun row => if where_short_link code row then clicked row else row)
             (links w)
    /\ random w' = random w
    /\ get_link_from_short code w' = Returns (Some l') w'
    /\ (short_link l' = short_link l /\ url l' = url l
        /\ deletion_id l' = deletion_id l /\ timestamp l' = timestamp l)
    /\ (forall other, other <> code ->
          get_link_from_short other w'
          = Returns (find (where_short_link other) (links w)) w')
    /\ (forall row, In row (links w) -> short_link row <> code ->
          In row (links w'))
    /\ List.length (links w') = List.length (links w)
    /\ schema_ok (links w').
Proof.
  intros Ok Int H Hc. apply get_link_from_short_inv in H as [Hf _].
  pose proof (clicked_binds _ _ _ Int Hf Hc) as Hb.
  eexists _, (clicked l).
  split; [exact (handle_redirect_url_clicked w code l Ok Hb Hf)|].
  simpl. split; [reflexivity|]. split; [reflexivity|].
  split; [now rewrite get_link_from_short_find; simpl;
           rewrite find_clicked, String.eqb_refl, Hf|].
  split; [auto|].
  split.
  { intros other N. rewrite get_link_from_short_find. simpl.
    rewrite find_clicked. apply String.eqb_neq in N. now rewrite N. }
  split.
  { intros row Hin N. apply in_map_iff. exists row. split; [|assumption].
    apply where_short_link_false in N. now rewrite N. }
  split; [apply length_map|].
  apply schema_ok_map; [|assumption].
  intros r _. now destruct (where_short_link code r).
Qed.

(** C3.  For a stored link, a deletion request carrying the stored
    [deletion_id] answers that the link has been deleted, and a redirect
    request for its short code then finds nothing; a deletion request
    carrying any other code answers that the deletion code was not valid
    and returns in the very state it started from, so the link is found
    with all its fields and (the table satisfying its schema and holding
    SQLite integers, the click count below the largest of them) still
    redirects; a deletion request for an absent short code answers that
    the short code could not be found. *)
Theorem handle_deletion_request_outcomes (w : World) (code token : string) :
  (forall l,
      get_link_from_short code w = Returns (Some l) w ->
      (token = deletion_id l ->
       exists w',
         handle_deletion_request code token w = Returns link_deleted_view w'
         /\ get_link_from_short code w' = Returns None w'
         /\ handle_redirect_url (Some code) w' = Returns unknown_short_code_view w')
      /\ (token <> deletion_id l ->
          handle_deletion_request code token w
          = Returns invalid_deletion_code_view w
          /\ get_link_from_short code w = Returns (Some l) w
          /\ (schema_ok (links w) -> integers_ok (links w) ->
              clicks l < sqlite_max ->
              exists w', handle_redirect_url (Some code) w
                         = Returns (redirect (url l)) w')))
  /\ (get_link_from_short code w = Returns None w ->
      handle_deletion_request code token w = Returns shortcode_not_found_text w).
Proof.
  pose proof (handle_deletion_request_cases code token w) as C.
  split.
  - intros l H. pose proof H as H0.
    apply get_link_from_short_inv in H as [Hf _]. rewrite Hf in C.
    split; intros T.
    + apply String.eqb_eq in T. rewrite T in C. eexists. split; [exact C|].
      assert (F : find (where_short_link code)
                    (links (set_links w
                       (filter (fun r => negb (where_short_link code r))
                               (links w)))) = None).
      { simpl. now rewrite find_filter_other_key, String.eqb_refl. }
      split; [now rewrite get_link_from_short_find, F|].
      now apply handle_redirect_url_missing.
    + apply String.eqb_neq in T. rewrite T in C.
      split; [exact C|]. split; [exact H0|].
      intros Ok Int Hc. eexists.
      exact (handle_redirect_url_clicked w code l Ok
               (clicked_binds _ _ _ Int Hf Hc) Hf).
  - intros H. apply get_link_from_short_inv in H as [Hf _].
    now rewrite Hf in C.
Qed.

(** C10.  The deletion code is compared with the stored [deletion_id] by
    exact string equality: for a stored link, every submitted code other
    than the stored one, even one that differs only in letter case, is
    answered as not valid and leaves the state as it was; the stored code,
    and only it, gets the link deleted. *)
Theorem handle_deletion_request_exact_match (w : World) (code token : string) (l : Link) :
  get_link_from_short code w = Returns (Some l) w ->
  (token <> deletion_id l ->
   handle_deletion_request code token w = Returns invalid_deletion_code_view w)
  /\ (token <> deletion_id l -> lower token = lower (deletion_id l) ->
      handle_deletion_request code token w = Returns invalid_deletion_code_view w)
  /\ (forall w', handle_deletion_request code token w = Returns link_deleted_view w' ->
                 token = deletion_id l)
  /\ (token = deletion_id l ->
      exists w',
        handle_deletion_request code token w = Returns link_deleted_view w'
        /\ get_link_from_short code w' = Returns None w').
Proof.
  intros H. apply get_link_from_short_inv in H as [Hf _].
  pose proof (handle_deletion_request_cases code token w) as C. rewrite Hf in C.
  destruct (String.eqb_spec token (deletion_id l)) as [E|N].
  - split; [contradiction|]. split; [contradiction|]. split; [auto|].
    intros _. eexists. split; [exact C|].
    rewrite get_link_from_short_find. simpl.
    now rewrite find_filter_other_key, String.eqb_refl.
  - split; [auto|]. split; [auto|]. split; [|contradiction].
    intros w' D. rewrite C in D. discriminate D.
Qed.

End Lifecycle.

(** ** The application, request after request *)

Section Application.

Import LinkDatabase.
Context {V : Validators}.

(** The four things a served request can do to the table. *)
Lemma serve_effect (fuel : nat) (rq : Request) (w w' : World) (r : Response) :
  serve fuel rq w = Some (r, w') ->
  links w' = links w
  \/ (exists now field code u tok,
        rq = POST_root now field
        /\ links w' = (links w ++ [mkLink code u tok 0 now])%list
        /\ find (where_short_link code) (links w) = None
        /\ forall row, In row (links w) -> deletion_id row <> tok)
  \/ (exists k l f,
        rq = GET_code k
        /\ find (where_short_link k) (links w) = Some l
        /\ links w' = map f (links w)
        /\ forall row, short_link (f row) = short_link row
                       /\ (short_link row <> k -> f row = row))
  \/ (exists k code,
        rq = POST_delete k code
        /\ links w' = filter (fun row => negb (where_short_link k row)) (links w)).
Proof.
  unfold serve. destruct rq as [|now field|k|k|k|k token]; cbn [handler].
  - intros H. injection H as <- <-. now left.
  - destruct (handle_new_url fuel now field w) as [r0 w0|e w0|] eqn:H;
      intros X; [| |discriminate]; injection X as <- <-.
    + apply handle_new_url_inv in H
        as [(_ & _ & ->)|(u & code & tok & _ & _ & L & F & D & _)]; [now left|].
      right; left. exists now, field, code, u, tok. auto.
    + left. eapply handle_new_url_raises; eauto.
  - destruct (handle_redirect_url_effect k w)
      as [(r0 & E)|[(e & E)|(l & f & Hf & E & Hkeep)]]; rewrite E;
      intros X; injection X as <- <-; [now left|now left|].
    right; right; left. exists k, l, f. auto.
  - unfold deletion_page_request.
    rewrite (bind_Returns _ _ _ _ _ (is_shortcode_in_db_find k w)).
    destruct (find (where_short_link k) (links w)); simpl;
      intros X; injection X as <- <-; now left.
  - unfold get_statistics_page.
    rewrite (bind_Returns _ _ _ _ _ (get_link_from_short_find k w)).
    destruct (find (where_short_link k) (links w)); simpl;
      intros X; injection X as <- <-; now left.
  - pose proof (handle_deletion_request_cases k token w) as C.
    destruct (find (where_short_link k) (links w)) as [l|].
    + destruct (String.eqb token (deletion_id l)); rewrite C;
        intros X; injection X as <- <-; [|now left].
      right; right; right. exists k, token. auto.
    + rewrite C. intros X; injection X as <- <-. now left.
Qed.

(** Every request leaves a table that satisfies its schema in a table
    that satisfies it. *)
Lemma serve_schema_ok (fuel : nat) (rq : Request) (w w' : World) (r : Response) :
  schema_ok (links w) -> serve fuel rq w = Some (r, w') -> schema_ok (links w').
Proof.
  intros Ok H. destruct rq as [|now field|k|k|k|k token].
  3:{ unfold serve in H. cbn [handler] in H.
      destruct (find (where_short_link k) (links w)) as [l|] eqn:Hf.
      - destruct (binds (clicked l)) eqn:Hb.
        + rewrite (handle_redirect_url_clicked w k l Ok Hb Hf) in H.
          injection H as <- <-. simpl. apply schema_ok_map; [|assumption].
          intros row _. now destruct (where_short_link k row).
        + rewrite (handle_redirect_url_overflow k l w Hf Hb) in H.
          now injection H as <- <-.
      - rewrite (handle_redirect_url_missing k w Hf) in H.
        now injection H as <- <-. }
  all: apply serve_effect in H
    as [L|[(now' & field' & code & u & tok & E & L & F & D)
          |[(k' & l & f & E & _)|(k' & code & E & L)]]];
    try discriminate E; try (rewrite L; assumption).
  - rewrite L. destruct Ok as [Nk Nd].
    split; apply NoDup_map_app_one; auto.
    + now apply find_where_None.
    + simpl. intros Hin. apply in_map_iff in Hin as (row & Er & Hr).
      now apply (D row Hr).
  - rewrite L. now apply schema_ok_filter.
Qed.

Lemma serve_all_schema_ok (fuel : nat) (rqs : list Request) (w w' : World)
    (rs : list Response) :
  schema_ok (links w) -> serve_all fuel rqs w = Some (rs, w') ->
  schema_ok (links w').
Proof.
  revert w rs; induction rqs as [|rq rqs IH]; intros w rs Ok H; simpl in H.
  - now injection H as <- <-.
  - destruct (serve fuel rq w) as [[r w1]|] eqn:S1; [|discriminate].
    destruct (serve_all fuel rqs w1) as [[rs1 w2]|] eqn:S2; [|discriminate].
    injection H as <- <-. eapply IH; [|exact S2]. eapply serve_schema_ok; eauto.
Qed.

(** A link that has not been clicked stays so under every request other
    than a redirect for its own short code. *)
Lemma serve_keeps_unclicked (code : string) (fuel : nat) (rq : Request)
    (w w' : World) (r : Response) :
  rq <> GET_code code ->
  serve fuel rq w = Some (r, w') ->
  (forall l, find (where_short_link code) (links w) = Some l -> clicks l = 0) ->
  forall l, find (where_short_link code) (links w') = Some l -> clicks l = 0.
Proof.
  intros Hrq H P l' Hl'.
  apply serve_effect in H
    as [L|[(now & field & c & u & tok & E & L & F & D)
          |[(k & l & f & E & Hf & L & Hkeep)|(k & token & E & L)]]];
    rewrite L in Hl'.
  - eauto.
  - rewrite find_app_one in Hl'.
    destruct (find (where_short_link code) (links w)) as [l0|] eqn:F0.
    + injection Hl' as <-. eauto.
    + destruct (where_short_link code _); [|discriminate].
      now injection Hl' as <-.
  - rewrite find_map_keeping_key in Hl' by (intros row; apply Hkeep).
    destruct (find (where_short_link code) (links w)) as [l0|] eqn:F0;
      [|discriminate].
    simpl in Hl'. injection Hl' as <-.
    destruct (find_where_In _ _ _ F0) as [_ K0].
    assert (short_link l0 <> k)
      by (intros Ek; apply Hrq; rewrite E; f_equal; congruence).
    destruct (Hkeep l0) as [_ Fix]. rewrite Fix; auto.
  - rewrite find_filter_other_key in Hl'.
    destruct (String.eqb code k); [discriminate|eauto].
Qed.

(** A stored link stays as it is under every request other than a
    redirect or a deletion for its own short code. *)
Lemma serve_keeps_link (code : string) (fuel : nat) (rq : Request)
    (w w' : World) (r : Response) (l : Link) :
  rq <> GET_code code ->
  (forall token, rq <> POST_delete code token) ->
  serve fuel rq w = Some (r, w') ->
  find (where_short_link code) (links w) = Some l ->
  find (where_short_link code) (links w') = Some l.
Proof.
  intros Hrq Hdel H Hl.
  destruct (find_where_In _ _ _ Hl) as [_ K].
  apply serve_effect in H
    as [L|[(now & field & c & u & tok & E & L & F & D)
          |[(k & l0 & f & E & Hf & L & Hkeep)|(k & token & E & L)]]];
    rewrite L.
  - assumption.
  - now rewrite find_app_one, Hl.
  - rewrite find_map_keeping_key by (intros row; apply Hkeep).
    rewrite Hl. simpl.
    assert (short_link l <> k)
      by (intros Ek; apply Hrq; rewrite E; f_equal; congruence).
    destruct (Hkeep l) as [_ Fix]. now rewrite Fix.
  - rewrite find_filter_other_key.
    destruct (String.eqb_spec code k) as [Ek|N]; [|assumption].
    exfalso. apply (Hdel token). rewrite E. now f_equal.
Qed.

Lemma serve_all_keeps_unclicked (code : string) (fuel : nat) (rqs : list Request)
    (w w' : World) (rs : list Response) :
  ~ In (GET_code code) rqs ->
  serve_all fuel rqs w = Some (rs, w') ->
  (forall l, find (where_short_link code) (links w) = Some l -> clicks l = 0) ->
  forall l, find (where_short_link code) (links w') = Some l -> clicks l = 0.
Proof.
  revert w rs; induction rqs as [|rq rqs IH]; intros w rs Hno H P; simpl in H.
  - now injection H as <- <-.
  - destruct (serve fuel rq w) as [[r w1]|] eqn:S1; [|discriminate].
    destruct (serve_all fuel rqs w1) as [[rs1 w2]|] eqn:S2; [|discriminate].
    injection H as <- <-.
    apply (IH w1 rs1); [intros Hin; apply Hno; now right|exact S2|].
    apply (serve_keeps_unclicked code fuel rq w w1 r); auto.
    intros ->. apply Hno. now left.
Qed.

Lemma serve_all_keeps_link (code : string) (fuel : nat) (rqs : list Request)
    (w w' : World) (rs : list Response) (l : Link) :
  ~ In (GET_code code) rqs ->
  (forall token, ~ In (POST_delete code token) rqs) ->
  serve_all fuel rqs w = Some (rs, w') ->
  find (where_short_link code) (links w) = Some l ->
  find (where_short_link code) (links w') = Some l.
Proof.
  revert w rs; induction rqs as [|rq rqs IH]; intros w rs Hno Hdel H Hl;
    simpl in H.
  - now injection H as <- <-.
  - destruct (serve fuel rq w) as [[r w1]|] eqn:S1; [|discriminate].
    destruct (serve_all fuel rqs w1) as [[rs1 w2]|] eqn:S2; [|discriminate].
    injection H as <- <-.
    apply (IH w1 rs1); [intros Hin; apply Hno; now right
                       |intros t Hin; apply (Hdel t); now right|exact S2|].
    apply (serve_keeps_link code fuel rq w w1 r); auto.
    + intros ->. apply Hno. now left.
    + intros t ->. apply (Hdel t). now left.
Qed.

End Application.

(** ** Creation *)

Section Creation.

Import LinkDatabase.
Context {V : Validators}.

(** C4.  Whenever [handle_new_url] accepts its input and answers with a
    short code and a deletion code, the table holds under that short code
    the link made of the normalised URL, the deletion code, zero clicks
    and the submission time; a redirect request for the short code answers
    with exactly that URL (and records the first click); and as long as no
    redirect request for the short code is served, the link stored under
    it has zero clicks, and is that very link as long as no deletion
    request for the short code is served either. *)
Theorem handle_new_url_then_redirect (fuel : nat) (now : Z) (field : string)
    (w w' : World) (code token : string) :
  handle_new_url fuel now field w = Returns (new_url_view code token) w' ->
  exists u,
    format_url (strip field) = Url u
    /\ get_link_from_short code w' = Returns (Some (mkLink code u token 0 now)) w'
    /\ get_statistics_page code w' = Returns (statistics_view code now 0) w'
    /\ (exists w'',
          handle_redirect_url (Some code) w' = Returns (redirect u) w''
          /\ get_link_from_short code w''
             = Returns (Some (mkLink code u token 1 now)) w'')
    /\ (forall fuel' rqs rs w'',
          ~ In (GET_code code) rqs ->
          serve_all fuel' rqs w' = Some (rs, w'') ->
          forall l, get_link_from_short code w'' = Returns (Some l) w'' ->
                    clicks l = 0)
    /\ (forall fuel' rqs rs w'',
          ~ In (GET_code code) rqs ->
          (forall t, ~ In (POST_delete code t) rqs) ->
          serve_all fuel' rqs w' = Some (rs, w'') ->
          get_link_from_short code w''
          = Returns (Some (mkLink code u token 0 now)) w'').
Proof.
  intros H. pose proof (handle_new_url_time_binds _ _ _ _ _ _ _ H) as Hnow.
  apply handle_new_url_inv in H
    as [(_ & X & _)|(u & c & tok & F & X & L & Free & D & _)]; [discriminate X|].
  injection X as <- <-. exists u. split; [exact F|].
  assert (Hf : find (where_short_link code) (links w')
               = Some (mkLink code u token 0 now)).
  { rewrite L, find_app_one, Free. unfold where_short_link; simpl.
    now rewrite String.eqb_refl. }
  split; [now rewrite get_link_from_short_find, Hf|].
  split.
  { unfold get_statistics_page.
    now rewrite (bind_Returns _ _ _ _ _ (get_link_from_short_find code w')), Hf. }
  split.
  { eexists. split.
    - apply (handle_redirect_url_found code _ w' Hf).
      { unfold binds; simpl. now rewrite Hnow. }
      intros r Hr Hd. rewrite L in Hr. apply in_app_iff in Hr as [Hr|[<-|[]]].
      + now destruct (D r Hr).
      + reflexivity.
    - rewrite get_link_from_short_find. simpl.
      rewrite find_map_keeping_key, Hf.
      + unfold where_short_link; simpl. now rewrite String.eqb_refl.
      + intros r. now destruct (where_short_link code r). }
  split.
  - intros fuel' rqs rs w'' Hno S l Hl.
    apply get_link_from_short_inv in Hl as [Hl _].
    apply (serve_all_keeps_unclicked code fuel' rqs w' w'' rs Hno S); [|exact Hl].
    intros l0. rewrite Hf. intros E. now injection E as <-.
  - intros fuel' rqs rs w'' Hno Hdel S.
    rewrite get_link_from_short_find.
    now rewrite (serve_all_keeps_link code fuel' rqs w' w'' rs _ Hno Hdel S Hf).
Qed.

End Creation.

(** ** The statements at concrete inputs *)

Lemma busy_world_schema_ok : schema_ok (links Sample.busy_world).
Proof. split; (constructor; [intros []|constructor]). Qed.

Lemma busy_world_integers_ok : integers_ok (links Sample.busy_world).
Proof. repeat constructor. Qed.

Lemma two_links_world_schema_ok : schema_ok (links Sample.two_links_world).
Proof.
  split; simpl; repeat constructor; simpl; intros H;
    repeat (destruct H as [H|H]; [discriminate H|]); exact H.
Qed.

Lemma two_links_world_integers_ok : integers_ok (links Sample.two_links_world).
Proof. repeat constructor. Qed.

Lemma handle_new_url_then_redirect_witness :
  @handle_new_url Sample.validators 1 1000 "  example.com " Sample.fresh_world
  = Returns (new_url_view "fov" "CKSZ8f") Sample.created_world
  /\ exists u,
       @format_url Sample.validators (strip "  example.com ") = Url u
       /\ LinkDatabase.get_link_from_short "fov" Sample.created_world
          = Returns (Some (mkLink "fov" u "CKSZ8f" 0 1000)) Sample.created_world
       /\ exists w'',
            handle_redirect_url (Some "fov") Sample.created_world
            = Returns (redirect u) w''.
Proof.
  split; [reflexivity|].
  destruct (@handle_new_url_then_redirect Sample.validators 1 1000
              "  example.com " Sample.fresh_world Sample.created_world
              "fov" "CKSZ8f" eq_refl)
    as (u & F & G & _ & (w'' & R & _) & _).
  exists u. split; [exact F|]. split; [exact G|]. exists w''. exact R.
Defined.

Lemma handle_redirect_url_counts_one_click_witness :
  schema_ok (links Sample.busy_world)
  /\ integers_ok (links Sample.busy_world)
  /\ 3 < sqlite_max
  /\ LinkDatabase.get_link_from_short "fov" Sample.busy_world
     = Returns (Some (mkLink "fov" "http://example.org" "CKSZ8f" 3 900))
               Sample.busy_world
  /\ (exists w',
        handle_redirect_url (Some "fov") Sample.busy_world
        = Returns (redirect "http://example.org") w'
        /\ LinkDatabase.get_link_from_short "fov" w'
           = Returns (Some (mkLink "fov" "http://example.org" "CKSZ8f" 4 900)) w')
  /\ LinkDatabase.get_link_from_short "abc" Sample.busy_world
     = Returns None Sample.busy_world
  /\ handle_redirect_url (Some "abc") Sample.busy_world
     = Returns unknown_short_code_view Sample.busy_world.
Proof.
  assert (Below : 3 < sqlite_max) by reflexivity.
  split; [exact busy_world_schema_ok|].
  split; [exact busy_world_integers_ok|]. split; [exact Below|].
  split; [reflexivity|].
  split.
  - destruct (handle_redirect_url_counts_one_click Sample.busy_world "fov"
                busy_world_schema_ok busy_world_integers_ok) as [Hit _].
    destruct (Hit (mkLink "fov" "http://example.org" "CKSZ8f" 3 900)
                  eq_refl Below) as (w' & R & G & _).
    exists w'. split; [exact R|exact G].
  - split; [reflexivity|].
    destruct (handle_redirect_url_counts_one_click Sample.busy_world "abc"
                busy_world_schema_ok busy_world_integers_ok) as [_ Miss].
    exact (Miss eq_refl).
Defined.

Lemma handle_redirect_url_frame_witness :
  schema_ok (links Sample.two_links_world)
  /\ integers_ok (links Sample.two_links_world)
  /\ 3 < sqlite_max
  /\ LinkDatabase.get_link_from_short "fov" Sample.two_links_world
     = Returns (Some (mkLink "fov" "http://example.org" "CKSZ8f" 3 900))
               Sample.two_links_world
  /\ exists w' l',
       handle_redirect_url (Some "fov") Sample.two_links_world
       = Returns (redirect "http://example.org") w'
       /\ LinkDatabase.get_link_from_short "fov" w' = Returns (Some l') w'
       /\ url l' = "http://example.org" /\ deletion_id l' = "CKSZ8f"
       /\ timestamp l' = 900
       /\ random w' = random Sample.two_links_world
       /\ LinkDatabase.get_link_from_short "abc" w'
          = Returns (Some (mkLink "abc" "http://example.com" "xyzXYZ" 0 950)) w'
       /\ In (mkLink "abc" "http://example.com" "xyzXYZ" 0 950) (links w')
       /\ List.length (links w') = 2%nat.
Proof.
  assert (Below : 3 < sqlite_max) by reflexivity.
  split; [exact two_links_world_schema_ok|].
  split; [exact two_links_world_integers_ok|]. split; [exact Below|].
  split; [reflexivity|].
  destruct (handle_redirect_url_frame Sample.two_links_world "fov"
              (mkLink "fov" "http://example.org" "CKSZ8f" 3 900)
              two_links_world_schema_ok two_links_world_integers_ok
              eq_refl Below)
    as (w' & l' & R & _ & Rnd & G & (_ & U & D & T) & Other & Rows & Len & _).
  exists w', l'. split; [exact R|]. split; [exact G|]. split; [exact U|].
  split; [exact D|]. split; [exact T|]. split; [exact Rnd|].
  split; [apply (Other "abc"); discriminate|].
  split; [|exact Len].
  apply Rows; [simpl; right; left; reflexivity|discriminate].
Defined.

Lemma handle_deletion_request_outcomes_witness :
  schema_ok (links Sample.busy_world)
  /\ integers_ok (links Sample.busy_world)
  /\ 3 < sqlite_max
  /\ LinkDatabase.get_link_from_short "fov" Sample.busy_world
  = Returns (Some (mkLink "fov" "http://example.org" "CKSZ8f" 3 900))
            Sample.busy_world
  /\ (exists w',
        handle_deletion_request "fov" "CKSZ8f" Sample.busy_world
        = Returns link_deleted_view w'
        /\ handle_redirect_url (Some "fov") w' = Returns unknown_short_code_view w')
  /\ handle_deletion_request "fov" "wrong1" Sample.busy_world
     = Returns invalid_deletion_code_view Sample.busy_world
  /\ (exists w',
        handle_redirect_url (Some "fov") Sample.busy_world
        = Returns (redirect "http://example.org") w')
  /\ handle_deletion_request "abc" "CKSZ8f" Sample.busy_world
     = Returns shortcode_not_found_text Sample.busy_world.
Proof.
  assert (Below : 3 < sqlite_max) by reflexivity.
  split; [exact busy_world_schema_ok|].
  split; [exact busy_world_integers_ok|]. split; [exact Below|].
  split; [reflexivity|].
  split.
  { destruct (handle_deletion_request_outcomes Sample.busy_world "fov" "CKSZ8f")
      as [Hit _].
    destruct (Hit _ eq_refl) as [Del _].
    destruct (Del eq_refl) as (w' & D & _ & R). exists w'. auto. }
  destruct (handle_deletion_request_outcomes Sample.busy_world "fov" "wrong1")
    as [Hit _].
  destruct (Hit (mkLink "fov" "http://example.org" "CKSZ8f" 3 900) eq_refl)
    as [_ Keep].
  assert (N : "wrong1" <> deletion_id (mkLink "fov" "http://example.org" "CKSZ8f" 3 900))
    by discriminate.
  destruct (Keep N) as (D & _ & R).
  split; [exact D|].
  split; [exact (R busy_world_schema_ok busy_world_integers_ok Below)|].
  destruct (handle_deletion_request_outcomes Sample.busy_world "abc" "CKSZ8f")
    as [_ Miss].
  exact (Miss eq_refl).
Defined.

Lemma handle_deletion_request_exact_match_witness :
  LinkDatabase.get_link_from_short "fov" Sample.busy_world
  = Returns (Some (mkLink "fov" "http://example.org" "CKSZ8f" 3 900))
            Sample.busy_world
  /\ "ckSZ8f" <> "CKSZ8f"
  /\ lower "ckSZ8f" = lower "CKSZ8f"
  /\ handle_deletion_request "fov" "ckSZ8f" Sample.busy_world
     = Returns invalid_deletion_code_view Sample.busy_world
  /\ exists w',
       handle_deletion_request "fov" "CKSZ8f" Sample.busy_world
       = Returns link_deleted_view w'
       /\ LinkDatabase.get_link_from_short "fov" w' = Returns None w'.
Proof.
  split; [reflexivity|]. split; [discriminate|]. split; [reflexivity|].
  split.
  - destruct (handle_deletion_request_exact_match Sample.busy_world "fov" "ckSZ8f" _ eq_refl)
      as (_ & Case & _).
    apply Case; [discriminate|reflexivity].
  - destruct (handle_deletion_request_exact_match Sample.busy_world "fov" "CKSZ8f" _ eq_refl)
      as (_ & _ & _ & Del).
    exact (Del eq_refl).
Defined.

(** The scenario of the specification, request after request: a bare
    domain is submitted, resolved, the deletion is refused for a wrong
    code and carried out for the right one, after which the short code is
    unknown. *)
Example end_to_end :
  exists w,
    @serve_all Sample.validators 1
      [POST_root 1000 "example.com"; GET_code "fov"; GET_stats "fov";
       POST_delete "fov" "ckSZ8f"; GET_code "fov";
       POST_delete "fov" "CKSZ8f"; GET_code "fov"]
      Sample.fresh_world
    = Some ([new_url_view "fov" "CKSZ8f"; redirect "http://example.com";
             statistics_view "fov" 1000 1; invalid_deletion_code_view;
             redirect "http://example.com"; link_deleted_view;
             unknown_short_code_view], w)
    /\ links w = [].
Proof. eexists. split; reflexivity. Qed.

(** The deletion code is not checked against the table before the insert:
    when it collides with a stored one, the insert fails and the request
    ends in an error, the table unchanged. *)
Example deletion_id_collision :
  let w := {| links := [mkLink "abc" "http://example.org" "CKSZ8f" 0 900];
              random := Sample.arithmetic 5 7 |} in
  exists w',
    @serve Sample.validators 1 (POST_root 1000 "example.com") w
    = Some (internal_server_error IntegrityError, w')
    /\ links w' = links w.
Proof. eexists. split; reflexivity. Qed.

(** With a source that keeps producing a code already in the table, the
    allocation loop is still running whatever the fuel. *)
Example allocation_can_run_forever (fuel : nat) :
  LinkDatabase.get_valid_short_link fuel 1
    {| links := [mkLink "a" "http://example.org" "CKSZ8f" 0 900];
       random := Sample.arithmetic 0 0 |}
  = Running.
Proof.
  set (t := [mkLink "a" "http://example.org" "CKSZ8f" 0 900]).
  assert (G : forall c,
             LinkDatabase.get_valid_short_link fuel 1
               {| links := t; random := {| draws := fun _ => 0; cursor := c |} |}
             = Running).
  { induction fuel as [|fuel IH]; intros c; [reflexivity|].
    change (LinkDatabase.get_valid_short_link (S fuel) 1
              {| links := t; random := {| draws := fun _ => 0; cursor := c |} |})
      with (LinkDatabase.get_valid_short_link fuel 1
              {| links := t; random := {| draws := fun _ => 0; cursor := S c |} |}).
    apply IH. }
  apply (G O).
Qed.

(** * Further properties of the code *)

(** ** The statements of [LinkDatabase], one by one *)

Section Statements.

Import LinkDatabase.

Lemma existsb_duplicate_iff (k d : string) (t : list Link) :
  existsb (fun row => String.eqb (short_link row) k
                      || String.eqb (deletion_id row) d) t = true
  <-> In k (map short_link t) \/ In d (map deletion_id t).
Proof.
  rewrite existsb_exists. split.
  - intros (row & Hin & H). apply orb_true_iff in H as [H|H];
      apply String.eqb_eq in H; [left|right]; apply in_map_iff; eauto.
  - intros [H|H]; apply in_map_iff in H as (row & E & Hin);
      exists row; (split; [assumption|]); apply orb_true_iff;
      [left|right]; now apply String.eqb_eq.
Qed.

Lemma filter_other_key_absent (k : string) (t : list Link) :
  ~ In k (map short_link t) ->
  filter (fun row => negb (where_short_link k row)) t = t.
Proof.
  induction t as [|r t IH]; simpl; intros H; [reflexivity|].
  destruct (where_short_link k r) eqn:E.
  - apply where_short_link_true in E. exfalso. apply H. now left.
  - simpl. f_equal. apply IH. tauto.
Qed.

Lemma filter_other_key_twice (k : string) (t : list Link) :
  filter (fun row => negb (where_short_link k row))
         (filter (fun row => negb (where_short_link k row)) t)
  = filter (fun row => negb (where_short_link k row)) t.
Proof.
  induction t as [|r t IH]; simpl; [reflexivity|].
  destruct (where_short_link k r) eqn:E; simpl; [exact IH|].
  rewrite E. simpl. now f_equal.
Qed.

Lemma filter_other_key_length (k : string) (t : list Link) :
  NoDup (map short_link t) -> In k (map short_link t) ->
  S (List.length (filter (fun row => negb (where_short_link k row)) t))
  = List.length t.
Proof.
  induction t as [|r t IH]; simpl; intros Nd Hin; [contradiction|].
  inversion Nd as [|? ? Hr Nd']; subst.
  destruct (where_short_link k r) eqn:E; simpl.
  - apply where_short_link_true in E. subst k.
    now rewrite filter_other_key_absent.
  - apply where_short_link_false in E. f_equal. apply IH; [assumption|].
    destruct Hin as [Hin|Hin]; [contradiction|assumption].
Qed.

Lemma set_links_same (w : World) : set_links w (links w) = w.
Proof. now destruct w. Qed.

(** X1.  An insert whose integers fit SQLite integers and whose
    [short_link] and [deletion_id] are both new
    succeeds; the link is then found under its short code exactly as it
    was given, every other short code finds what it found before, and the
    schema still holds. *)
Theorem add_link_then_found (link : Link) (w : World) :
  binds link = true ->
  ~ In (short_link link) (map short_link (links w)) ->
  ~ In (deletion_id link) (map deletion_id (links w)) ->
  exists w',
    add_link link w = Returns tt w'
    /\ get_link_from_short (short_link link) w' = Returns (Some link) w'
    /\ (forall other, other <> short_link link ->
          get_link_from_short other w'
          = Returns (find (where_short_link other) (links w)) w')
    /\ List.length (links w') = S (List.length (links w))
    /\ (schema_ok (links w) -> schema_ok (links w')).
Proof.
  intros Hb Hk Hd.
  assert (E : existsb (fun row => String.eqb (short_link row) (short_link link)
                                  || String.eqb (deletion_id row) (deletion_id link))
                      (links w) = false).
  { apply not_true_is_false. rewrite existsb_duplicate_iff. tauto. }
  eexists. unfold add_link. rewrite Hb, E. split; [reflexivity|].
  rewrite get_link_from_short_find. simpl. rewrite find_app_one.
  apply find_where_None in Hk. rewrite Hk.
  unfold where_short_link at 1. rewrite String.eqb_refl.
  split; [reflexivity|]. split.
  - intros other N. rewrite get_link_from_short_find. simpl.
    rewrite find_app_one.
    destruct (find (where_short_link other) (links w)); [reflexivity|].
    assert (where_short_link other link = false) as ->; [|reflexivity].
    apply where_short_link_false. congruence.
  - split; [rewrite length_app; simpl; lia|].
    intros Ok. now apply schema_ok_add.
Qed.

(** X3.  [delete_link] always succeeds: afterwards the short code of the
    link finds nothing, every other short code finds what it found before,
    deleting once more changes nothing, and deleting a link whose short
    code is not in the table changes nothing at all. *)
Theorem delete_link_then_absent (link : Link) (w : World) :
  exists w',
    delete_link link w = Returns tt w'
    /\ get_link_from_short (short_link link) w' = Returns None w'
    /\ (forall other, other <> short_link link ->
          get_link_from_short other w'
          = Returns (find (where_short_link other) (links w)) w')
    /\ delete_link link w' = Returns tt w'
    /\ (~ In (short_link link) (map short_link (links w)) -> w' = w).
Proof.
  eexists. split; [reflexivity|].
  split.
  { rewrite get_link_from_short_find. simpl.
    now rewrite find_filter_other_key, String.eqb_refl. }
  split.
  { intros other N. rewrite get_link_from_short_find. simpl.
    rewrite find_filter_other_key. apply String.eqb_neq in N. now rewrite N. }
  split.
  { unfold delete_link, set_links. simpl. now rewrite filter_other_key_twice. }
  intros H. rewrite (filter_other_key_absent _ _ H). apply set_links_same.
Qed.

(** X4.  An update whose [clicks] or [timestamp] does not fit a SQLite
    integer raises [OverflowError] and changes nothing, whether or not a
    row matches.  When both fit: an update for a short code that is not in
    the table changes nothing; an update for a short code that is in the
    table, with a [deletion_id] that no row under another short code has,
    succeeds, the link is then found exactly as it was given and every
    other short code finds what it found before; an update that would
    give the row a [deletion_id] stored under another short code raises
    [IntegrityError] and changes nothing. *)
Theorem update_link_outcomes (link : Link) (w : World) :
  (binds link = false -> update_link link w = Raises OverflowError w)
  /\ (binds link = true ->
      ~ In (short_link link) (map short_link (links w)) ->
      update_link link w = Returns tt w)
  /\ (binds link = true ->
      In (short_link link) (map short_link (links w)) ->
      (forall row, In row (links w) -> deletion_id row = deletion_id link ->
                   short_link row = short_link link) ->
      exists w',
        update_link link w = Returns tt w'
        /\ get_link_from_short (short_link link) w' = Returns (Some link) w'
        /\ forall other, other <> short_link link ->
             get_link_from_short other w'
             = Returns (find (where_short_link other) (links w)) w')
  /\ (binds link = true ->
      In (short_link link) (map short_link (links w)) ->
      (exists row, In row (links w) /\ deletion_id row = deletion_id link
                   /\ short_link row <> short_link link) ->
      update_link link w = Raises IntegrityError w).
Proof.
  split; [|split; [|split]].
  - intros Hb. unfold update_link. now rewrite Hb.
  - intros Hb H. unfold update_link. rewrite Hb. cbn [negb].
    assert (E : existsb (where_short_link (short_link link)) (links w) = false).
    { apply not_true_is_false. intros T. apply existsb_exists in T as (r & Hr & T).
      apply where_short_link_true in T. apply H. apply in_map_iff. eauto. }
    rewrite E. simpl.
    assert (Same : map (fun row =>
                     if where_short_link (short_link link) row
                     then mkLink (short_link row) (url link) (deletion_id link)
                                 (clicks link) (timestamp link)
                     else row) (links w) = links w);
      [|rewrite Same; now rewrite set_links_same].
    transitivity (map (fun row : Link => row) (links w)); [|apply map_id].
    apply map_ext_in. intros r Hr.
    destruct (where_short_link (short_link link) r) eqn:T; [|reflexivity].
    apply where_short_link_true in T. exfalso. apply H. apply in_map_iff. eauto.
  - intros Hb Hin Hown. rewrite (update_link_returns link w Hb Hown).
    eexists. split; [reflexivity|].
    assert (K : forall r, short_link (if where_short_link (short_link link) r
                                      then mkLink (short_link r) (url link)
                                             (deletion_id link) (clicks link)
                                             (timestamp link)
                                      else r) = short_link r).
    { intros r. now destruct (where_short_link (short_link link) r). }
    split.
    + rewrite get_link_from_short_find. simpl.
      rewrite (find_map_keeping_key _ _ _ K).
      destruct (find (where_short_link (short_link link)) (links w)) as [old|] eqn:F.
      * destruct (find_where_In _ _ _ F) as [_ Ko]. simpl.
        unfold where_short_link at 1. rewrite Ko, String.eqb_refl.
        now destruct link.
      * apply find_where_None in F. contradiction.
    + intros other N. rewrite get_link_from_short_find. simpl.
      rewrite (find_map_keeping_key _ _ _ K).
      destruct (find (where_short_link other) (links w)) as [o|] eqn:F;
        [|reflexivity].
      destruct (find_where_In _ _ _ F) as [_ Ko]. simpl.
      assert (where_short_link (short_link link) o = false) as ->;
        [|reflexivity].
      apply where_short_link_false. congruence.
  - intros Hb Hin (row & Hr & Hd & Hk). unfold update_link.
    rewrite Hb. cbn [negb].
    assert (E1 : existsb (where_short_link (short_link link)) (links w) = true).
    { apply in_map_iff in Hin as (r & Er & Hin). apply existsb_exists.
      exists r. split; [assumption|]. now apply where_short_link_true. }
    assert (E2 : existsb
                   (fun row => negb (where_short_link (short_link link) row)
                               && String.eqb (deletion_id row) (deletion_id link))
                   (links w) = true).
    { apply existsb_exists. exists row. split; [assumption|].
      apply andb_true_iff. split.
      - apply negb_true_iff. now apply where_short_link_false.
      - now apply String.eqb_eq. }
    now rewrite E1, E2.
Qed.

(** X5.  The three places that ask whether a short code exists agree:
    [is_shortcode_in_db] answers [True] exactly when [get_link_from_short]
    finds a link, that is when the short code is a key of the table; the
    deletion page then shows its form and the statistics page the stored
    time and click count, and otherwise both show the unknown-URL page.
    None of them changes the state. *)
Theorem existence_checks_agree (code : string) (w : World) :
  exists b o,
    is_shortcode_in_db code w = Returns b w
    /\ get_link_from_short code w = Returns o w
    /\ (b = true <-> exists l, o = Some l)
    /\ (b = true <-> In code (map short_link (links w)))
    /\ deletion_page_request code w
       = Returns (if b then deletion_form_view code else unknown_short_url_view) w
    /\ get_statistics_page code w
       = Returns (match o with
                  | Some l => statistics_view code (timestamp l) (clicks l)
                  | None => unknown_short_url_view
                  end) w.
Proof.
  eexists _, _. split; [apply is_shortcode_in_db_find|].
  split; [apply get_link_from_short_find|].
  unfold deletion_page_request, get_statistics_page.
  rewrite (bind_Returns _ _ _ _ _ (is_shortcode_in_db_find code w)).
  rewrite (bind_Returns _ _ _ _ _ (get_link_from_short_find code w)).
  destruct (find (where_short_link code) (links w)) as [l|] eqn:F.
  - split; [split; eauto|]. split; [|split; reflexivity].
    split; [intros _|reflexivity].
    destruct (find_where_In _ _ _ F) as [Hin Hk]. apply in_map_iff. eauto.
  - split; [split; [discriminate|intros (l & X); discriminate]|].
    split; [|split; reflexivity].
    apply find_where_None in F. split; [discriminate|contradiction].
Qed.

(** X6.  In a table that satisfies its schema the deletion code of one
    link does not delete another: presented for a different short code
    that is stored, it is answered as not valid and nothing changes. *)
Theorem deletion_code_is_per_link (w : World) (a b : string) (la lb : Link) :
  schema_ok (links w) ->
  get_link_from_short a w = Returns (Some la) w ->
  get_link_from_short b w = Returns (Some lb) w ->
  a <> b ->
  handle_deletion_request b (deletion_id la) w
  = Returns invalid_deletion_code_view w.
Proof.
  intros Ok Ha Hb N.
  apply get_link_from_short_inv in Ha as [Fa _].
  apply get_link_from_short_inv in Hb as [Fb _].
  pose proof (handle_deletion_request_cases b (deletion_id la) w) as C.
  rewrite Fb in C.
  destruct (String.eqb_spec (deletion_id la) (deletion_id lb)) as [E|_];
    [|exact C].
  exfalso. apply N.
  destruct (find_where_In _ _ _ Fa) as [Ia Ka].
  destruct (find_where_In _ _ _ Fb) as [Ib Kb].
  destruct Ok as [_ Nd].
  rewrite <- Ka, <- Kb.
  now rewrite (NoDup_map_injective deletion_id (links w) la lb Nd Ia Ib E).
Qed.

End Statements.

(** ** More on URL normalisation *)

(** X7.  Whatever [format_url] returns as a URL passes [validators.url]
    and is the input itself or the input with [http://] in front;
    normalising it once more gives it back unchanged. *)
Theorem format_url_sound {V : Validators} (u s : string) :
  format_url u = Url s ->
  validators_url s = true
  /\ (s = u \/ s = "http://" ++ u)
  /\ format_url s = Url s.
Proof.
  unfold format_url at 1.
  destruct (validators_url u) eqn:E1.
  - intros H. injection H as <-. unfold format_url. rewrite E1. auto.
  - destruct (validators_domain u); [|discriminate].
    destruct (validators_url ("http://" ++ u)) eqn:E2; [|discriminate].
    intros H. assert (S : s = "http://" ++ u) by congruence. subst s.
    unfold format_url. rewrite E2. auto.
Qed.

Lemma format_url_sound_witness :
  @format_url Sample.validators "example.com" = Url "http://example.com"
  /\ @validators_url Sample.validators "http://example.com" = true
  /\ @format_url Sample.validators "http://example.com" = Url "http://example.com".
Proof.
  split; [reflexivity|].
  destruct (@format_url_sound Sample.validators "example.com"
              "http://example.com" eq_refl) as (A & _ & B).
  split; [exact A|exact B].
Defined.

(** ** More on the code generator *)

Section Generator.

Lemma get_nth_error (s : string) (n : nat) :
  String.get n s = nth_error (list_ascii_of_string s) n.
Proof.
  revert n; induction s as [|a s IH]; intros [|n]; simpl; auto.
Qed.

Lemma length_list_ascii_of_string (s : string) :
  List.length (list_ascii_of_string s) = String.length s.
Proof. induction s; simpl; congruence. Qed.

Lemma index_of_spec (c : ascii) (l : list ascii) :
  In c l ->
  (index_of c l < List.length l)%nat /\ nth_error l (index_of c l) = Some c.
Proof.
  induction l as [|a l IH]; simpl; intros H; [contradiction|].
  destruct (Ascii.eqb_spec a c) as [->|N].
  - split; [lia|reflexivity].
  - destruct H as [H|H]; [contradiction|].
    destruct (IH H) as [Lt Nth]. split; [lia|exact Nth].
Qed.

(** One pass through the body of the comprehension when the next raw draw
    is the position of [c] in the alphabet. *)
Lemma charset_draw_exact (c : ascii) (w : World) :
  in_charset c ->
  draws (random w) (cursor (random w))
  = Z.of_nat (index_of c (list_ascii_of_string charset)) ->
  (i <- random_randint 0 (Z.of_nat (String.length charset) - 1) ;;
   str_getitem charset i) w
  = Returns c (after_draws 1 w).
Proof.
  intros Hc Hd.
  destruct (index_of_spec c _ Hc) as [Lt Nth].
  rewrite length_list_ascii_of_string in Lt.
  unfold bind, random_randint. rewrite Hd.
  set (n := index_of c (list_ascii_of_string charset)) in *.
  replace (0 + Z.of_nat n mod (Z.of_nat (String.length charset) - 1 - 0 + 1))
    with (Z.of_nat n).
  2:{ rewrite Z.mod_small; lia. }
  unfold str_getitem.
  destruct (Z.ltb_spec (Z.of_nat n) 0) as [?|_]; [lia|].
  destruct (Z.leb_spec 0 (Z.of_nat n)) as [_|?]; [|lia].
  destruct (Z.ltb_spec (Z.of_nat n) (Z.of_nat (String.length charset)))
    as [_|?]; [|lia].
  cbn [andb]. rewrite Nat2Z.id, get_nth_error, Nth.
  unfold ret, after_draws. do 3 f_equal. lia.
Qed.

Lemma list_comprehension_exact (cs : list ascii) (w : World) :
  Forall in_charset cs ->
  (forall i, (i < List.length cs)%nat ->
     draws (random w) (cursor (random w) + i)
     = Z.of_nat (index_of (nth i cs "a"%char) (list_ascii_of_string charset))) ->
  list_comprehension (List.length cs)
    (i <- random_randint 0 (Z.of_nat (String.length charset) - 1) ;;
     str_getitem charset i) w
  = Returns cs (after_draws (List.length cs) w).
Proof.
  revert w; induction cs as [|c cs IH]; intros w All Hd.
  - simpl. unfold ret, after_draws, set_random.
    destruct w as [t [d k]]. simpl. do 3 f_equal. lia.
  - inversion All as [|? ? Hc All']; subst.
    cbn [List.length list_comprehension].
    assert (H0 : draws (random w) (cursor (random w))
                 = Z.of_nat (index_of c (list_ascii_of_string charset))).
    { specialize (Hd O ltac:(simpl; lia)). simpl in Hd.
      now rewrite Nat.add_0_r in Hd. }
    assert (H1 : forall i, (i < List.length cs)%nat ->
               draws (random (after_draws 1 w))
                     (cursor (random (after_draws 1 w)) + i)
               = Z.of_nat (index_of (nth i cs "a"%char)
                                    (list_ascii_of_string charset))).
    { intros i Hi. specialize (Hd (S i) ltac:(simpl; lia)). simpl in Hd |- *.
      rewrite <- Hd. f_equal. lia. }
    rewrite (bind_Returns _ _ _ _ _ (charset_draw_exact c w Hc H0)).
    rewrite (bind_Returns _ _ _ _ _ (IH (after_draws 1 w) All' H1)).
    unfold ret, after_draws, set_random. simpl. do 3 f_equal. lia.
Qed.

(** X8.  Every string over the alphabet can come out of
    [generate_random_code]: for the draws that spell it, called with its
    length, the function returns exactly that string. *)
Theorem every_code_can_be_generated (code : string) (t : list Link) :
  Forall in_charset (list_ascii_of_string code) ->
  exists w',
    generate_random_code (Z.of_nat (String.length code))
      {| links := t; random := draws_for code |}
    = Returns code w'.
Proof.
  intros All. eexists. unfold generate_random_code.
  rewrite Nat2Z.id, <- length_list_ascii_of_string.
  assert (Hd : forall i, (i < List.length (list_ascii_of_string code))%nat ->
             draws (random {| links := t; random := draws_for code |})
                   (cursor (random {| links := t; random := draws_for code |}) + i)
             = Z.of_nat (index_of (nth i (list_ascii_of_string code) "a"%char)
                                  (list_ascii_of_string charset)))
    by (intros i _; reflexivity).
  rewrite (bind_Returns _ _ _ _ _
             (list_comprehension_exact (list_ascii_of_string code) _ All Hd)).
  unfold ret. now rewrite string_of_list_ascii_of_string.
Qed.

Lemma every_code_can_be_generated_witness :
  Forall in_charset (list_ascii_of_string "aB7")
  /\ exists w',
       generate_random_code 3 {| links := []; random := draws_for "aB7" |}
       = Returns "aB7" w'.
Proof.
  assert (All : Forall in_charset (list_ascii_of_string "aB7")).
  { repeat constructor; unfold in_charset; simpl; tauto. }
  split; [exact All|].
  exact (every_code_can_be_generated "aB7" [] All).
Defined.

End Generator.

(** ** More on short-code allocation *)

Section AllocationLoop.

Import LinkDatabase.

Lemma drawn_after_draws (n : nat) (w : World) : drawn n w (after_draws n w).
Proof. unfold drawn, after_draws; simpl; auto. Qed.

Lemma drawn_unique (n : nat) (w w1 w2 : World) :
  drawn n w w1 -> drawn n w w2 -> w1 = w2.
Proof.
  intros (L1 & D1 & C1) (L2 & D2 & C2).
  destruct w1 as [t1 [d1 c1]], w2 as [t2 [d2 c2]]. simpl in *. congruence.
Qed.

(** X9.  What [get_valid_short_link] returns has the requested number of
    characters, all from the alphabet; the call leaves the table alone and
    has consumed a whole number of rounds of draws, at least one and at
    most one per turn of the loop, [length] draws each. *)
Theorem get_valid_short_link_shape (fuel : nat) (length : Z)
    (w w' : World) (code : string) :
  get_valid_short_link fuel length w = Returns code w' ->
  String.length code = Z.to_nat length
  /\ Forall in_charset (list_ascii_of_string code)
  /\ links w' = links w
  /\ exists rounds,
       (1 <= rounds <= fuel)%nat
       /\ w' = after_draws (rounds * Z.to_nat length) w.
Proof.
  revert w; induction fuel as [|fuel IH]; intros w H; simpl in H.
  - discriminate.
  - destruct (generate_random_code_returns length w)
      as (cand & w1 & E & Len & All & D).
    rewrite (bind_Returns _ _ _ _ _ E) in H.
    rewrite (bind_Returns _ _ _ _ _ (is_shortcode_in_db_find cand w1)) in H.
    pose proof (drawn_unique _ _ _ _ D (drawn_after_draws _ w)) as ->.
    destruct (find (where_short_link cand) (links (after_draws (Z.to_nat length) w)));
      simpl in H.
    + apply IH in H as (Len' & All' & L' & rounds & Hr & ->).
      repeat (split; [assumption|]). exists (S rounds). split; [lia|].
      unfold after_draws, set_random. simpl. do 2 f_equal. lia.
    + unfold ret in H. injection H as <- <-.
      repeat (split; [first [assumption|reflexivity]|]).
      exists 1%nat. split; [lia|]. now rewrite Nat.mul_1_l.
Qed.

Lemma get_valid_short_link_shape_witness :
  get_valid_short_link 5 3 Sample.busy_world
  = Returns "CKS" Sample.busy_world_after_two_rounds
  /\ String.length "CKS" = Z.to_nat 3
  /\ links Sample.busy_world_after_two_rounds = links Sample.busy_world.
Proof.
  split; [reflexivity|].
  destruct (get_valid_short_link_shape 5 3 Sample.busy_world
              Sample.busy_world_after_two_rounds "CKS" eq_refl)
    as (A & _ & B & _).
  split; [exact A|exact B].
Defined.

(** X10.  The loop ends as soon as a candidate is free: when the code
    generated after [k] rounds of draws is not in the table, any fuel
    above [k] makes [get_valid_short_link] return, with a code that
    [is_shortcode_in_db] does not find. *)
Theorem get_valid_short_link_finds_free_code (k fuel : nat) (length : Z)
    (w w1 : World) (free : string) :
  (k < fuel)%nat ->
  generate_random_code length (after_draws (k * Z.to_nat length) w)
  = Returns free w1 ->
  is_shortcode_in_db free w = Returns false w ->
  exists code w',
    get_valid_short_link fuel length w = Returns code w'
    /\ is_shortcode_in_db code w' = Returns false w'.
Proof.
  intros Hk G F.
  rewrite is_shortcode_in_db_find in F.
  assert (Free : find (where_short_link free) (links w) = None).
  { destruct (find (where_short_link free) (links w)); [discriminate|reflexivity]. }
  destruct (get_valid_short_link_terminates k length w) as (code & w' & R).
  { exists (after_draws (k * Z.to_nat length) w), free, w1.
    split; [apply drawn_after_draws|]. split; assumption. }
  exists code, w'.
  split; [apply (get_valid_short_link_fuel_mono (S k)); [lia|exact R]|].
  apply get_valid_short_link_inv in R as (N & _ & _ & n & (L & _)).
  now rewrite is_shortcode_in_db_find, L, N.
Qed.

Lemma get_valid_short_link_finds_free_code_witness :
  (1 < 4)%nat
  /\ generate_random_code 3 (after_draws (1 * Z.to_nat 3) Sample.busy_world)
     = Returns "CKS" Sample.busy_world_after_two_rounds
  /\ is_shortcode_in_db "CKS" Sample.busy_world = Returns false Sample.busy_world
  /\ exists code w',
       get_valid_short_link 4 3 Sample.busy_world = Returns code w'
       /\ is_shortcode_in_db code w' = Returns false w'.
Proof.
  split; [lia|]. split; [reflexivity|]. split; [reflexivity|].
  apply (get_valid_short_link_finds_free_code 1 4 3 Sample.busy_world
           Sample.busy_world_after_two_rounds "CKS");
    [lia|reflexivity|reflexivity].
Defined.

(** X11.  The loop has no way out once the codes are used up: when every
    string of the requested length over the alphabet is a short code of
    the table, [get_valid_short_link] is still running whatever the fuel
    and whatever the random source. *)
Theorem get_valid_short_link_exhausted (length : Z) (w : World) :
  (forall code,
      String.length code = Z.to_nat length ->
      Forall in_charset (list_ascii_of_string code) ->
      In code (map short_link (links w))) ->
  forall fuel, get_valid_short_link fuel length w = Running.
Proof.
  intros Full fuel. revert w Full.
  induction fuel as [|fuel IH]; intros w Full; [reflexivity|].
  destruct (generate_random_code_returns length w)
    as (cand & w1 & E & Len & All & (L & _)).
  change (get_valid_short_link (S fuel) length w)
    with ((candidate <- generate_random_code length ;;
           taken <- is_shortcode_in_db candidate ;;
           if negb taken then ret candidate
           else get_valid_short_link fuel length) w).
  rewrite (bind_Returns _ _ _ _ _ E).
  rewrite (bind_Returns _ _ _ _ _ (is_shortcode_in_db_find cand w1)).
  destruct (find (where_short_link cand) (links w1)) eqn:F.
  - cbn [negb]. apply IH. now rewrite L.
  - exfalso. apply find_where_None in F. apply F. rewrite L. now apply Full.
Qed.

Lemma exhausted_world_is_full (code : string) :
  String.length code = Z.to_nat 1 ->
  Forall in_charset (list_ascii_of_string code) ->
  In code (map short_link (links Sample.exhausted_world)).
Proof.
  destruct code as [|c [|c' rest]]; intros Len All;
    try (cbn in Len; discriminate Len).
  cbn in All. inversion All as [|? ? Hc _]; subst.
  apply in_map_iff.
  exists (mkLink (String c "") "http://example.org" (String c "") 0 900).
  split; [reflexivity|].
  exact (in_map (fun c => mkLink (String c "") "http://example.org"
                                 (String c "") 0 900)
                (list_ascii_of_string charset) c Hc).
Qed.

Lemma get_valid_short_link_exhausted_witness :
  (forall code,
      String.length code = Z.to_nat 1 ->
      Forall in_charset (list_ascii_of_string code) ->
      In code (map short_link (links Sample.exhausted_world)))
  /\ get_valid_short_link 100 1 Sample.exhausted_world = Running.
Proof.
  split; [exact exhausted_world_is_full|].
  exact (get_valid_short_link_exhausted 1 Sample.exhausted_world
           exhausted_world_is_full 100%nat).
Defined.

End AllocationLoop.

(** ** More on the handlers *)

Section HandlerSteps.

Import LinkDatabase.
Context {V : Validators}.

Lemma format_url_validated (u s : string) :
  format_url u = Url s -> validators_url s = true.
Proof.
  unfold format_url. destruct (validators_url u) eqn:E1.
  - intros H. congruence.
  - destruct (validators_domain u); [|discriminate].
    destruct (validators_url ("http://" ++ u)) eqn:E2; [|discriminate].
    intros H. congruence.
Qed.

(** The three ways a redirect request can end. *)
Lemma handle_redirect_url_cases (k : string) (w : World) :
  match find (where_short_link k) (links w) with
  | None => handle_redirect_url (Some k) w = Returns unknown_short_code_view w
  | Some l =>
      (exists e, handle_redirect_url (Some k) w = Raises e w)
      \/ binds (clicked l) = true
         /\ handle_redirect_url (Some k) w
         = Returns (redirect (url l))
             (set_links w
                (map (fun row =>
                        if where_short_link k row
                        then mkLink (short_link row) (url l) (deletion_id l)
                                    (clicks l + 1) (timestamp l)
                        else row)
                     (links w)))
  end.
Proof.
  destruct (find (where_short_link k) (links w)) as [l|] eqn:Hf;
    [|now apply handle_redirect_url_missing].
  destruct (find_where_In _ _ _ Hf) as [_ Hk].
  unfold handle_redirect_url.
  rewrite (bind_Returns _ _ _ _ _ (get_link_from_short_find k w)), Hf.
  destruct (binds (clicked l)) eqn:Hb.
  - unfold bind, update_link. fold (clicked l). rewrite Hb. cbn [negb].
    simpl short_link. simpl deletion_id. rewrite Hk.
    match goal with |- context [if ?b then _ else _] => destruct b end;
      [left; eexists|right; split]; reflexivity.
  - left. exists OverflowError.
    unfold bind, update_link. fold (clicked l). now rewrite Hb.
Qed.

(** What one request does to the link stored under [code]: nothing, one
    click (a redirect for [code]), or its deletion (a deletion request for
    [code] with its deletion code). *)
Lemma serve_link_step (code : string) (fuel : nat) (rq : Request)
    (w w' : World) (r : Response) (l : Link) :
  find (where_short_link code) (links w) = Some l ->
  serve fuel rq w = Some (r, w') ->
  find (where_short_link code) (links w') = Some l
  \/ (rq = GET_code code /\ r = redirect (url l)
      /\ find (where_short_link code) (links w') = Some (clicked l))
  \/ (rq = POST_delete code (deletion_id l) /\ r = link_deleted_view
      /\ find (where_short_link code) (links w') = None).
Proof.
  intros Hl H. destruct (find_where_In _ _ _ Hl) as [_ Kl].
  destruct rq as [|now field|k|k|k|k token].
  3:{ unfold serve in H. cbn [handler] in H.
      pose proof (handle_redirect_url_cases k w) as C.
      destruct (find (where_short_link k) (links w)) as [lk|] eqn:Hk.
      - destruct C as [(e & C)|(_ & C)]; rewrite C in H; injection H as <- <-;
          [now left|].
        assert (Keep : forall row,
                   short_link (if where_short_link k row
                               then mkLink (short_link row) (url lk)
                                      (deletion_id lk) (clicks lk + 1)
                                      (timestamp lk)
                               else row) = short_link row).
        { intros row. now destruct (where_short_link k row). }
        simpl. rewrite (find_map_keeping_key _ _ _ Keep), Hl. simpl.
        destruct (String.eqb_spec k code) as [->|N].
        + rewrite Hk in Hl. injection Hl as ->.
          right; left. unfold where_short_link at 1.
          rewrite Kl, String.eqb_refl. unfold clicked. rewrite Kl. auto.
        + left. assert (where_short_link k l = false) as ->; [|reflexivity].
          apply where_short_link_false. congruence.
      - rewrite C in H. injection H as <- <-. now left. }
  5:{ unfold serve in H. cbn [handler] in H.
      pose proof (handle_deletion_request_cases k token w) as C.
      destruct (find (where_short_link k) (links w)) as [lk|] eqn:Hk.
      - destruct (String.eqb_spec token (deletion_id lk)) as [->|N];
          rewrite C in H; injection H as <- <-; [|now left].
        simpl. rewrite find_filter_other_key.
        destruct (String.eqb_spec code k) as [->|N]; [|now left].
        rewrite Hk in Hl. injection Hl as ->. right; right. auto.
      - rewrite C in H. injection H as <- <-. now left. }
  all: apply serve_effect in H
    as [L|[(now' & field' & c & u & tok & E & L & F & D)
          |[(k' & l' & f & E & _)|(k' & c & E & L)]]];
    try discriminate E; left; rewrite L; try assumption.
  now rewrite find_app_one, Hl.
Qed.

(** The link stored under [code] stays stored, with its deletion code,
    as long as no deletion request presents that code for it. *)
Lemma serve_all_keeps_stored (code token : string) (fuel : nat)
    (rqs : list Request) (w w' : World) (rs : list Response) :
  ~ In (POST_delete code token) rqs ->
  serve_all fuel rqs w = Some (rs, w') ->
  (exists l, find (where_short_link code) (links w) = Some l
             /\ deletion_id l = token) ->
  exists l, find (where_short_link code) (links w') = Some l
            /\ deletion_id l = token.
Proof.
  revert w rs; induction rqs as [|rq rqs IH]; intros w rs Hno H (l & Hl & Hd);
    simpl in H.
  - injection H as <- <-. eauto.
  - destruct (serve fuel rq w) as [[r w1]|] eqn:S1; [|discriminate].
    destruct (serve_all fuel rqs w1) as [[rs1 w2]|] eqn:S2; [|discriminate].
    injection H as <- <-.
    apply (IH w1 rs1); [intros Hin; apply Hno; now right|exact S2|].
    destruct (serve_link_step code fuel rq w w1 r l Hl S1)
      as [Same|[(_ & _ & Clicked)|(E & _)]].
    + eauto.
    + exists (clicked l). auto.
    + exfalso. apply Hno. left. now rewrite E, Hd.
Qed.

(** X12.  A request that changes nothing else: whatever request is
    served, a link that is stored before and after it has kept its short
    code, URL, deletion code and creation time, and its click count is
    the same, or one higher after a redirect for its own short code. *)
Theorem serve_keeps_link_data (code : string) (fuel : nat) (rq : Request)
    (w w' : World) (r : Response) (l l' : Link) :
  serve fuel rq w = Some (r, w') ->
  get_link_from_short code w = Returns (Some l) w ->
  get_link_from_short code w' = Returns (Some l') w' ->
  short_link l' = short_link l
  /\ url l' = url l
  /\ deletion_id l' = deletion_id l
  /\ timestamp l' = timestamp l
  /\ (clicks l' = clicks l
      \/ (rq = GET_code code /\ clicks l' = clicks l + 1)).
Proof.
  intros S Hl Hl'.
  apply get_link_from_short_inv in Hl as [Hl _].
  apply get_link_from_short_inv in Hl' as [Hl' _].
  destruct (serve_link_step code fuel rq w w' r l Hl S)
    as [Same|[(E & _ & Clicked)|(_ & _ & Gone)]].
  - rewrite Same in Hl'. injection Hl' as <-. auto 6.
  - rewrite Clicked in Hl'. injection Hl' as <-. simpl. auto 7.
  - rewrite Gone in Hl'. discriminate.
Qed.

(** X13.  Two links in the table never share a short code or a deletion
    code: a creation that succeeds while an earlier link is still stored
    (no deletion request has presented its deletion code for it) returns
    a different short code and a different deletion code. *)
Theorem later_creation_differs (fuel1 fuel fuel2 : nat) (now1 now2 : Z)
    (field1 field2 : string) (rqs : list Request) (rs : list Response)
    (w w1 w2 w3 : World) (code1 token1 code2 token2 : string) :
  handle_new_url fuel1 now1 field1 w = Returns (new_url_view code1 token1) w1 ->
  ~ In (POST_delete code1 token1) rqs ->
  serve_all fuel rqs w1 = Some (rs, w2) ->
  handle_new_url fuel2 now2 field2 w2 = Returns (new_url_view code2 token2) w3 ->
  code2 <> code1 /\ token2 <> token1.
Proof.
  intros H1 Hno S H2.
  apply handle_new_url_inv in H1
    as [(_ & X & _)|(u & c & tok & _ & X & L & Free & _)]; [discriminate X|].
  injection X as <- <-.
  destruct (serve_all_keeps_stored code1 token1 fuel rqs w1 w2 rs Hno S)
    as (l & Hl & Hd).
  { exists (mkLink code1 u token1 0 now1). split; [|reflexivity].
    rewrite L, find_app_one, Free. unfold where_short_link; simpl.
    now rewrite String.eqb_refl. }
  apply handle_new_url_inv in H2
    as [(_ & X & _)|(u2 & c & tok & _ & X & _ & Free2 & D2 & _)];
    [discriminate X|].
  injection X as <- <-.
  split.
  - intros ->. congruence.
  - intros ->. destruct (find_where_In _ _ _ Hl) as [Hin _].
    now apply (D2 l Hin).
Qed.

End HandlerSteps.

(** ** Creation, deletion and whole runs *)

Section Runs.

Import LinkDatabase.
Context {V : Validators}.

(** X14.  A creation that succeeds returns a short code of three and a
    deletion code of six characters of the alphabet, stores a URL that
    [validators.url] accepts, and only appends one row: every link found
    before is found unchanged afterwards, and a table that satisfied its
    schema still does. *)
Theorem handle_new_url_appends (fuel : nat) (now : Z) (field : string)
    (w w' : World) (code token : string) :
  handle_new_url fuel now field w = Returns (new_url_view code token) w' ->
  (String.length code = 3%nat /\ Forall in_charset (list_ascii_of_string code))
  /\ (String.length token = 6%nat /\ Forall in_charset (list_ascii_of_string token))
  /\ exists u,
       format_url (strip field) = Url u
       /\ validators_url u = true
       /\ links w' = (links w ++ [mkLink code u token 0 now])%list
       /\ (forall other l,
             get_link_from_short other w = Returns (Some l) w ->
             get_link_from_short other w' = Returns (Some l) w')
       /\ (schema_ok (links w) -> schema_ok (links w')).
Proof.
  intros H.
  apply handle_new_url_inv in H
    as [(_ & X & _)|(u & c & tok & F & X & L & Free & D & Sc & St)];
    [discriminate X|].
  injection X as <- <-. split; [exact Sc|]. split; [exact St|].
  exists u. split; [exact F|]. split; [exact (format_url_validated _ _ F)|].
  split; [exact L|]. split.
  - intros other l Hl. apply get_link_from_short_inv in Hl as [Hl _].
    now rewrite get_link_from_short_find, L, find_app_one, Hl.
  - intros [Nk Nd]. rewrite L. split; apply NoDup_map_app_one; auto.
    + now apply find_where_None.
    + simpl. intros Hin. apply in_map_iff in Hin as (row & Er & Hr).
      now apply (D row Hr).
Qed.

(** X15.  A creation ends in an exception only at its insert, after the
    input was normalised to a URL, the allocation loop returned a free
    short code and the deletion code was generated.  The exception is
    [OverflowError] when the submission time does not fit a SQLite
    integer; otherwise it is [IntegrityError], and then the deletion code
    generated in this very run is already stored.  The table is left as it
    was. *)
Theorem handle_new_url_raises_on_collision (fuel : nat) (now : Z)
    (field : string) (w w' : World) (e : exn) :
  handle_new_url fuel now field w = Raises e w' ->
  exists u code w1 token,
    format_url (strip field) = Url u
    /\ get_valid_short_link fuel 3 w = Returns code w1
    /\ is_shortcode_in_db code w = Returns false w
    /\ generate_random_code 6 w1 = Returns token w'
    /\ links w' = links w
    /\ ((e = OverflowError /\ sqlite_integer now = false)
        \/ (e = IntegrityError /\ sqlite_integer now = true
            /\ In token (map deletion_id (links w)))).
Proof.
  intros H. pose proof (handle_new_url_raises _ _ _ _ _ _ H) as L.
  unfold handle_new_url in H.
  destruct (format_url (strip field)) as [u|] eqn:F; [|discriminate].
  apply bind_Raises_inv in H as [H|(code & w1 & G & H)];
    [now apply get_valid_short_link_no_exception in H|].
  pose proof G as G0.
  apply get_valid_short_link_inv in G as (Free & _ & _ & n & (L1 & _)).
  destruct (generate_random_code_returns 6 w1)
    as (tok & w2 & T & _ & _ & (L2 & _)).
  rewrite (bind_Returns _ _ _ _ _ T) in H.
  apply bind_Raises_inv in H as [H|(a & w3 & _ & H)]; [|discriminate].
  apply add_link_Raises_inv in H as (-> & Why).
  exists u, code, w1, tok. split; [reflexivity|]. split; [exact G0|].
  split; [now rewrite is_shortcode_in_db_find, Free|].
  split; [exact T|]. split; [exact L|].
  change (binds (mkLink code u tok 0 now)) with (sqlite_integer now) in Why.
  destruct Why as [(-> & B)|(-> & B & X)]; [left; auto|right].
  split; [reflexivity|]. split; [exact B|].
  cbn [short_link deletion_id] in X.
  apply existsb_duplicate_iff in X. rewrite L2, L1 in X.
  destruct X as [X|X]; [|exact X].
  apply find_where_None in Free. contradiction.
Qed.

(** X16.  A deletion that succeeds removes the link under the short code
    and nothing else: the short code is free again, every other short
    code finds what it found before, the random source is untouched, and
    a table that satisfied its schema has exactly one row less and still
    satisfies it. *)
Theorem handle_deletion_request_frame (w w' : World) (code token : string) :
  handle_deletion_request code token w = Returns link_deleted_view w' ->
  is_shortcode_in_db code w = Returns true w
  /\ is_shortcode_in_db code w' = Returns false w'
  /\ (forall other, other <> code ->
        get_link_from_short other w'
        = Returns (find (where_short_link other) (links w)) w')
  /\ random w' = random w
  /\ (schema_ok (links w) ->
      S (List.length (links w')) = List.length (links w)
      /\ schema_ok (links w')).
Proof.
  intros H. pose proof (handle_deletion_request_cases code token w) as C.
  rewrite !is_shortcode_in_db_find.
  destruct (find (where_short_link code) (links w)) as [l|] eqn:Hf;
    [|rewrite C in H; discriminate H].
  destruct (String.eqb token (deletion_id l));
    rewrite C in H; [|discriminate H].
  injection H as <-. simpl.
  split; [reflexivity|].
  split; [now rewrite find_filter_other_key, String.eqb_refl|].
  split.
  { intros other N. rewrite get_link_from_short_find. simpl.
    rewrite find_filter_other_key. apply String.eqb_neq in N. now rewrite N. }
  split; [reflexivity|].
  intros Ok. split; [|now apply schema_ok_filter].
  destruct Ok as [Nk _]. apply filter_other_key_length; [assumption|].
  destruct (find_where_In _ _ _ Hf) as [Hin Hk]. apply in_map_iff. eauto.
Qed.

(** In a table that satisfies its schema, clicking the one row under a key
    keeps the integers within SQLite's range as long as the clicked row
    can be bound. *)
Lemma integers_ok_clicked (t : list Link) (code : string) (l : Link) :
  schema_ok t -> integers_ok t ->
  find (where_short_link code) t = Some l ->
  binds (clicked l) = true ->
  integers_ok (map (fun row => if where_short_link code row
                               then clicked row else row) t).
Proof.
  intros Ok Int Hf Hb. unfold integers_ok in *. rewrite Forall_forall in *.
  intros row' Hr. apply in_map_iff in Hr as (row & <- & Hr).
  destruct (where_short_link code row) eqn:E; [|now apply Int].
  apply where_short_link_true in E.
  now rewrite (schema_ok_own_key _ _ _ Ok Hf row Hr E).
Qed.

(** X17.  Clicks add up: in a table that satisfies its schema and holds
    SQLite integers, [n] redirect requests in a row for a stored short
    code whose click count stays within SQLite's range are all answered
    with a redirect to its URL, and leave the link with its click count
    raised by exactly [n] and nothing else changed. *)
Theorem repeated_redirects_count (n fuel : nat) (w : World) (code : string) (l : Link) :
  schema_ok (links w) ->
  integers_ok (links w) ->
  get_link_from_short code w = Returns (Some l) w ->
  clicks l + Z.of_nat n <= sqlite_max ->
  exists w',
    serve_all fuel (repeat (GET_code code) n) w
    = Some (repeat (redirect (url l)) n, w')
    /\ get_link_from_short code w'
       = Returns (Some (mkLink (short_link l) (url l) (deletion_id l)
                               (clicks l + Z.of_nat n) (timestamp l))) w'.
Proof.
  revert w l; induction n as [|n IH]; intros w l Ok Int Hl Hc.
  - exists w. split; [reflexivity|]. rewrite Hl. do 2 f_equal.
    destruct l; simpl. f_equal. lia.
  - pose proof Hl as Hf. apply get_link_from_short_inv in Hf as [Hf _].
    assert (Hb : binds (clicked l) = true)
      by (apply (clicked_binds _ _ _ Int Hf); lia).
    pose proof (handle_redirect_url_clicked w code l Ok Hb Hf) as R.
    set (w1 := set_links w
                 (map (fun row => if where_short_link code row
                                  then clicked row else row) (links w))) in *.
    assert (Ok1 : schema_ok (links w1)).
    { apply schema_ok_map; [|assumption].
      intros r _. now destruct (where_short_link code r). }
    assert (Hl1 : get_link_from_short code w1 = Returns (Some (clicked l)) w1).
    { rewrite get_link_from_short_find. unfold w1; simpl.
      now rewrite find_clicked, String.eqb_refl, Hf. }
    assert (Int1 : integers_ok (links w1))
      by (exact (integers_ok_clicked _ _ _ Ok Int Hf Hb)).
    assert (Hc1 : clicks (clicked l) + Z.of_nat n <= sqlite_max)
      by (simpl; lia).
    destruct (IH w1 (clicked l) Ok1 Int1 Hl1 Hc1) as (w' & S1 & G).
    exists w'. split.
    + cbn [repeat serve_all]. unfold serve at 1. cbn [handler].
      rewrite R. fold w1. simpl url in S1. now rewrite S1.
    + rewrite G. simpl. do 3 f_equal. lia.
Qed.

Lemma serve_rows_well_formed (fuel : nat) (rq : Request) (w w' : World)
    (r : Response) :
  Forall well_formed_row (links w) ->
  serve fuel rq w = Some (r, w') ->
  Forall well_formed_row (links w').
Proof.
  intros Wf H. destruct rq as [|now field|k|k|k|k token].
  2:{ unfold serve in H. cbn [handler] in H.
      destruct (handle_new_url fuel now field w) as [r0 w0|e w0|] eqn:X;
        [| |discriminate]; injection H as <- <-.
      - apply handle_new_url_inv in X
          as [(_ & _ & ->)|(u & c & tok & F & _ & L & _ & _ & Sc & St)];
          [assumption|].
        rewrite L. apply Forall_app. split; [assumption|].
        constructor; [|constructor]. unfold well_formed_row; simpl.
        repeat split; try tauto; [exact (format_url_validated _ _ F)|lia].
      - now rewrite (handle_new_url_raises _ _ _ _ _ _ X). }
  2:{ unfold serve in H. cbn [handler] in H.
      pose proof (handle_redirect_url_cases k w) as C.
      destruct (find (where_short_link k) (links w)) as [l|] eqn:Hk.
      - destruct C as [(e & C)|(_ & C)]; rewrite C in H; injection H as <- <-;
          [assumption|].
        destruct (find_where_In _ _ _ Hk) as [Hin _].
        rewrite Forall_forall in Wf.
        destruct (Wf l Hin) as (_ & Tl & Ul & Cl).
        simpl. apply Forall_forall. intros row' Hr.
        apply in_map_iff in Hr as (row & <- & Hr).
        destruct (where_short_link k row); [|now apply Wf].
        destruct (Wf row Hr) as (Sr & _).
        unfold well_formed_row; simpl. repeat split; try tauto. lia.
      - rewrite C in H. now injection H as <- <-. }
  all: apply serve_effect in H
    as [L|[(now' & field' & c & u & tok & E & L & F & D)
          |[(k' & l' & f & E & _)|(k' & c & E & L)]]];
    try discriminate E; rewrite L; try assumption.
  apply Forall_forall. intros row Hr. apply filter_In in Hr as [Hr _].
  rewrite Forall_forall in Wf. now apply Wf.
Qed.

(** X18.  From a newly created database on, whatever requests are served,
    the table satisfies its schema: no two rows share a short code, no two
    rows share a deletion code. *)
Theorem schema_holds_from_empty_database (fuel : nat) (rqs : list Request)
    (source : RandomSource) (rs : list Response) (w' : World) :
  serve_all fuel rqs (initial_world source) = Some (rs, w') ->
  schema_ok (links w').
Proof.
  intros H. eapply serve_all_schema_ok; [|exact H].
  exact schema_ok_create_database.
Qed.

(** X19.  From a newly created database on, whatever requests are served,
    every row has a short code of three and a deletion code of six
    characters of the alphabet, a URL that [validators.url] accepts, and
    a click count that is not negative. *)
Theorem rows_well_formed_from_empty_database (fuel : nat) (rqs : list Request)
    (source : RandomSource) (rs : list Response) (w' : World) :
  serve_all fuel rqs (initial_world source) = Some (rs, w') ->
  Forall well_formed_row (links w').
Proof.
  assert (G : forall rqs w rs w',
             Forall well_formed_row (links w) ->
             serve_all fuel rqs w = Some (rs, w') ->
             Forall well_formed_row (links w')).
  { clear. intros rqs; induction rqs as [|rq rqs IH]; intros w rs w' Wf H;
      simpl in H.
    - now injection H as <- <-.
    - destruct (serve fuel rq w) as [[r w1]|] eqn:S1; [|discriminate].
      destruct (serve_all fuel rqs w1) as [[rs1 w2]|] eqn:S2; [|discriminate].
      injection H as <- <-. eapply IH; [|exact S2].
      eapply serve_rows_well_formed; eauto. }
  intros H. eapply G; [|exact H]. constructor.
Qed.

(** X20.  In a table that satisfies its schema and holds SQLite integers,
    with every click count below the largest of them, only a creation can
    end in an error or keep running: every other request is answered,
    never with an internal server error, and without touching the random
    source. *)
Theorem only_creation_can_fail (fuel : nat) (rq : Request) (w : World) :
  schema_ok (links w) ->
  integers_ok (links w) ->
  Forall (fun row => clicks row < sqlite_max) (links w) ->
  (forall now field, rq <> POST_root now field) ->
  exists r w',
    serve fuel rq w = Some (r, w')
    /\ (forall e, r <> internal_server_error e)
    /\ random w' = random w.
Proof.
  intros Ok Int Below Hrq. unfold serve.
  destruct rq as [|now field|k|k|k|k token]; cbn [handler].
  - eexists _, _. split; [reflexivity|]. split; [discriminate|reflexivity].
  - now destruct (Hrq now field).
  - destruct (find (where_short_link k) (links w)) as [l|] eqn:Hf.
    + assert (Hb : binds (clicked l) = true).
      { apply (clicked_binds _ _ _ Int Hf). rewrite Forall_forall in Below.
        apply Below. now destruct (find_where_In _ _ _ Hf). }
      rewrite (handle_redirect_url_clicked w k l Ok Hb Hf).
      eexists _, _. split; [reflexivity|]. split; [discriminate|reflexivity].
    + rewrite (handle_redirect_url_missing k w Hf).
      eexists _, _. split; [reflexivity|]. split; [discriminate|reflexivity].
  - unfold deletion_page_request.
    rewrite (bind_Returns _ _ _ _ _ (is_shortcode_in_db_find k w)).
    destruct (find (where_short_link k) (links w)); simpl;
      eexists _, _; (split; [reflexivity|]); split;
      solve [discriminate|reflexivity].
  - unfold get_statistics_page.
    rewrite (bind_Returns _ _ _ _ _ (get_link_from_short_find k w)).
    destruct (find (where_short_link k) (links w)); simpl;
      eexists _, _; (split; [reflexivity|]); split;
      solve [discriminate|reflexivity].
  - pose proof (handle_deletion_request_cases k token w) as C.
    destruct (find (where_short_link k) (links w)) as [l|].
    + destruct (String.eqb token (deletion_id l)); rewrite C;
        eexists _, _; (split; [reflexivity|]); split;
        solve [discriminate|reflexivity].
    + rewrite C. eexists _, _. split; [reflexivity|].
      split; [discriminate|reflexivity].
Qed.

End Runs.

(** ** The further properties at concrete inputs *)

Lemma add_link_then_found_witness :
  LinkDatabase.binds (mkLink "abc" "http://example.com" "xyzXYZ" 0 950) = true
  /\ ~ In "abc" (map short_link (links Sample.busy_world))
  /\ ~ In "xyzXYZ" (map deletion_id (links Sample.busy_world))
  /\ exists w',
       LinkDatabase.add_link (mkLink "abc" "http://example.com" "xyzXYZ" 0 950)
                             Sample.busy_world = Returns tt w'
       /\ LinkDatabase.get_link_from_short "abc" w'
          = Returns (Some (mkLink "abc" "http://example.com" "xyzXYZ" 0 950)) w'.
Proof.
  assert (Hk : ~ In "abc" (map short_link (links Sample.busy_world)))
    by (simpl; intros [H|[]]; discriminate H).
  assert (Hd : ~ In "xyzXYZ" (map deletion_id (links Sample.busy_world)))
    by (simpl; intros [H|[]]; discriminate H).
  split; [reflexivity|]. split; [exact Hk|]. split; [exact Hd|].
  destruct (add_link_then_found (mkLink "abc" "http://example.com" "xyzXYZ" 0 950)
              Sample.busy_world eq_refl Hk Hd) as (w' & A & G & _).
  exists w'. split; [exact A|exact G].
Defined.

Lemma delete_link_then_absent_witness :
  exists w',
    LinkDatabase.delete_link (mkLink "fov" "" "" 0 0) Sample.two_links_world
    = Returns tt w'
    /\ LinkDatabase.get_link_from_short "fov" w' = Returns None w'
    /\ LinkDatabase.get_link_from_short "abc" w'
       = Returns (Some (mkLink "abc" "http://example.com" "xyzXYZ" 0 950)) w'.
Proof.
  destruct (delete_link_then_absent (mkLink "fov" "" "" 0 0) Sample.two_links_world)
    as (w' & D & G & Other & _).
  exists w'. split; [exact D|]. split; [exact G|].
  apply (Other "abc"). discriminate.
Defined.

Lemma update_link_outcomes_witness :
  LinkDatabase.update_link (mkLink "zzz" "http://example.net" "q" (2 ^ 63) 2)
                           Sample.two_links_world
  = Raises OverflowError Sample.two_links_world
  /\ LinkDatabase.update_link (mkLink "zzz" "http://example.net" "q" 1 2)
                              Sample.two_links_world
     = Returns tt Sample.two_links_world
  /\ (exists w',
        LinkDatabase.update_link (mkLink "abc" "http://example.net" "xyzXYZ" 5 951)
                                 Sample.two_links_world = Returns tt w'
        /\ LinkDatabase.get_link_from_short "abc" w'
           = Returns (Some (mkLink "abc" "http://example.net" "xyzXYZ" 5 951)) w')
  /\ LinkDatabase.update_link (mkLink "abc" "http://example.net" "CKSZ8f" 5 951)
                              Sample.two_links_world
     = Raises IntegrityError Sample.two_links_world.
Proof.
  split; [|split; [|split]].
  - destruct (update_link_outcomes (mkLink "zzz" "http://example.net" "q" (2 ^ 63) 2)
                Sample.two_links_world) as (Overflow & _).
    apply Overflow. reflexivity.
  - destruct (update_link_outcomes (mkLink "zzz" "http://example.net" "q" 1 2)
                Sample.two_links_world) as (_ & Absent & _).
    apply Absent; [reflexivity|]. simpl. intros H.
    repeat (destruct H as [H|H]; [discriminate H|]). exact H.
  - destruct (update_link_outcomes (mkLink "abc" "http://example.net" "xyzXYZ" 5 951)
                Sample.two_links_world) as (_ & _ & Present & _).
    destruct Present as (w' & U & G & _).
    + reflexivity.
    + simpl. right; left; reflexivity.
    + simpl. intros row [<-|[<-|[]]] H; [discriminate H|reflexivity].
    + exists w'. split; [exact U|exact G].
  - destruct (update_link_outcomes (mkLink "abc" "http://example.net" "CKSZ8f" 5 951)
                Sample.two_links_world) as (_ & _ & _ & Conflict).
    apply Conflict.
    + reflexivity.
    + simpl. right; left; reflexivity.
    + exists (mkLink "fov" "http://example.org" "CKSZ8f" 3 900).
      split; [simpl; left; reflexivity|]. split; [reflexivity|discriminate].
Defined.

Lemma existence_checks_agree_witness :
  exists b o,
    LinkDatabase.is_shortcode_in_db "fov" Sample.busy_world
    = Returns b Sample.busy_world
    /\ LinkDatabase.get_link_from_short "fov" Sample.busy_world
       = Returns o Sample.busy_world
    /\ (b = true <-> exists l, o = Some l).
Proof.
  destruct (existence_checks_agree "fov" Sample.busy_world)
    as (b & o & I & G & Iff & _).
  exists b, o. split; [exact I|]. split; [exact G|exact Iff].
Defined.

Lemma deletion_code_is_per_link_witness :
  schema_ok (links Sample.two_links_world)
  /\ "fov" <> "abc"
  /\ handle_deletion_request "abc" "CKSZ8f" Sample.two_links_world
     = Returns invalid_deletion_code_view Sample.two_links_world.
Proof.
  split; [exact two_links_world_schema_ok|]. split; [discriminate|].
  apply (deletion_code_is_per_link Sample.two_links_world "fov" "abc"
           (mkLink "fov" "http://example.org" "CKSZ8f" 3 900)
           (mkLink "abc" "http://example.com" "xyzXYZ" 0 950)
           two_links_world_schema_ok eq_refl eq_refl).
  discriminate.
Defined.

Lemma serve_keeps_link_data_witness :
  @serve Sample.validators 1 (GET_code "fov") Sample.busy_world
  = Some (redirect "http://example.org", Sample.busy_world_clicked)
  /\ url (mkLink "fov" "http://example.org" "CKSZ8f" 4 900) = "http://example.org"
  /\ deletion_id (mkLink "fov" "http://example.org" "CKSZ8f" 4 900) = "CKSZ8f"
  /\ timestamp (mkLink "fov" "http://example.org" "CKSZ8f" 4 900) = 900.
Proof.
  split; [reflexivity|].
  destruct (@serve_keeps_link_data Sample.validators "fov" 1 (GET_code "fov")
              Sample.busy_world Sample.busy_world_clicked
              (redirect "http://example.org")
              (mkLink "fov" "http://example.org" "CKSZ8f" 3 900)
              (mkLink "fov" "http://example.org" "CKSZ8f" 4 900)
              eq_refl eq_refl eq_refl)
    as (_ & U & D & T & _).
  split; [exact U|]. split; [exact D|exact T].
Defined.

Lemma later_creation_differs_witness :
  @handle_new_url Sample.validators 1 1000 "example.com" Sample.fresh_world
  = Returns (new_url_view "fov" "CKSZ8f") Sample.created_world
  /\ ~ In (POST_delete "fov" "CKSZ8f") [GET_code "fov"]
  /\ @serve_all Sample.validators 1 [GET_code "fov"] Sample.created_world
     = Some ([redirect "http://example.com"], Sample.clicked_world)
  /\ @handle_new_url Sample.validators 1 1001 "example.org" Sample.clicked_world
     = Returns (new_url_view "ovC" "KSZ8fo") Sample.second_created_world
  /\ "ovC" <> "fov" /\ "KSZ8fo" <> "CKSZ8f".
Proof.
  assert (Hno : ~ In (POST_delete "fov" "CKSZ8f") [GET_code "fov"])
    by (intros [H|[]]; discriminate H).
  split; [reflexivity|]. split; [exact Hno|].
  split; [reflexivity|]. split; [reflexivity|].
  exact (@later_creation_differs Sample.validators 1 1 1 1000 1001
           "example.com" "example.org" [GET_code "fov"]
           [redirect "http://example.com"]
           Sample.fresh_world Sample.created_world Sample.clicked_world
           Sample.second_created_world "fov" "CKSZ8f" "ovC" "KSZ8fo"
           eq_refl Hno eq_refl eq_refl).
Defined.

Lemma handle_new_url_appends_witness :
  @handle_new_url Sample.validators 1 1001 "example.org" Sample.clicked_world
  = Returns (new_url_view "ovC" "KSZ8fo") Sample.second_created_world
  /\ String.length "ovC" = 3%nat
  /\ String.length "KSZ8fo" = 6%nat
  /\ exists u,
       @validators_url Sample.validators u = true
       /\ links Sample.second_created_world
          = (links Sample.clicked_world ++ [mkLink "ovC" u "KSZ8fo" 0 1001])%list.
Proof.
  split; [reflexivity|].
  destruct (@handle_new_url_appends Sample.validators 1 1001 "example.org"
              Sample.clicked_world Sample.second_created_world "ovC" "KSZ8fo"
              eq_refl)
    as ((Lc & _) & (Lt & _) & u & _ & Vu & L & _).
  split; [exact Lc|]. split; [exact Lt|]. exists u. split; [exact Vu|exact L].
Defined.

Lemma handle_new_url_raises_on_collision_witness :
  @handle_new_url Sample.validators 1 1000 "example.com" Sample.collision_world
  = Raises IntegrityError (after_draws 9 Sample.collision_world)
  /\ exists code w1,
       LinkDatabase.get_valid_short_link 1 3 Sample.collision_world
       = Returns code w1
       /\ generate_random_code 6 w1
          = Returns "CKSZ8f" (after_draws 9 Sample.collision_world)
       /\ In "CKSZ8f" (map deletion_id (links Sample.collision_world)).
Proof.
  split; [reflexivity|].
  destruct (@handle_new_url_raises_on_collision Sample.validators 1 1000
              "example.com" Sample.collision_world
              (after_draws 9 Sample.collision_world) IntegrityError eq_refl)
    as (u & code & w1 & token & _ & G & _ & T & _ & Why).
  destruct Why as [(X & _)|(_ & _ & Hin)]; [discriminate X|].
  assert (W1 : w1 = after_draws 3 Sample.collision_world).
  { assert (R : LinkDatabase.get_valid_short_link 1 3 Sample.collision_world
                = Returns "fov" (after_draws 3 Sample.collision_world))
      by reflexivity.
    rewrite R in G. now injection G as _ <-. }
  assert (E : token = "CKSZ8f").
  { subst w1.
    assert (R : generate_random_code 6 (after_draws 3 Sample.collision_world)
                = Returns "CKSZ8f" (after_draws 9 Sample.collision_world))
      by reflexivity.
    rewrite R in T. now injection T as <-. }
  subst token. exists code, w1. split; [exact G|]. split; [exact T|exact Hin].
Defined.

Lemma handle_deletion_request_frame_witness :
  handle_deletion_request "fov" "CKSZ8f" Sample.two_links_world
  = Returns link_deleted_view
      (set_links Sample.two_links_world
         [mkLink "abc" "http://example.com" "xyzXYZ" 0 950])
  /\ LinkDatabase.is_shortcode_in_db "fov" Sample.two_links_world
     = Returns true Sample.two_links_world
  /\ LinkDatabase.get_link_from_short "abc"
       (set_links Sample.two_links_world
          [mkLink "abc" "http://example.com" "xyzXYZ" 0 950])
     = Returns (Some (mkLink "abc" "http://example.com" "xyzXYZ" 0 950))
         (set_links Sample.two_links_world
            [mkLink "abc" "http://example.com" "xyzXYZ" 0 950]).
Proof.
  split; [reflexivity|].
  destruct (handle_deletion_request_frame Sample.two_links_world
              (set_links Sample.two_links_world
                 [mkLink "abc" "http://example.com" "xyzXYZ" 0 950])
              "fov" "CKSZ8f" eq_refl)
    as (In0 & _ & Other & _).
  split; [exact In0|]. apply (Other "abc"). discriminate.
Defined.

Lemma repeated_redirects_count_witness :
  schema_ok (links Sample.busy_world)
  /\ integers_ok (links Sample.busy_world)
  /\ 3 + Z.of_nat 3 <= sqlite_max
  /\ exists w',
       @serve_all Sample.validators 1 (repeat (GET_code "fov") 3) Sample.busy_world
       = Some (repeat (redirect "http://example.org") 3, w')
       /\ LinkDatabase.get_link_from_short "fov" w'
          = Returns (Some (mkLink "fov" "http://example.org" "CKSZ8f" (3 + 3) 900)) w'.
Proof.
  assert (Below : 3 + Z.of_nat 3 <= sqlite_max) by discriminate.
  split; [exact busy_world_schema_ok|].
  split; [exact busy_world_integers_ok|]. split; [exact Below|].
  exact (@repeated_redirects_count Sample.validators 3 1 Sample.busy_world "fov"
           (mkLink "fov" "http://example.org" "CKSZ8f" 3 900)
           busy_world_schema_ok busy_world_integers_ok eq_refl Below).
Defined.

Lemma schema_holds_from_empty_database_witness :
  @serve_all Sample.validators 1
    [POST_root 1000 "example.com"; GET_code "fov"; POST_root 1001 "example.org"]
    (initial_world (Sample.arithmetic 5 7))
  = Some ([new_url_view "fov" "CKSZ8f"; redirect "http://example.com";
           new_url_view "ovC" "KSZ8fo"], Sample.second_created_world)
  /\ schema_ok (links Sample.second_created_world).
Proof.
  split; [reflexivity|].
  exact (@schema_holds_from_empty_database Sample.validators 1
           [POST_root 1000 "example.com"; GET_code "fov";
            POST_root 1001 "example.org"]
           (Sample.arithmetic 5 7)
           [new_url_view "fov" "CKSZ8f"; redirect "http://example.com";
            new_url_view "ovC" "KSZ8fo"]
           Sample.second_created_world eq_refl).
Defined.

Lemma rows_well_formed_from_empty_database_witness :
  @serve_all Sample.validators 1
    [POST_root 1000 "example.com"; GET_code "fov"; POST_root 1001 "example.org"]
    (initial_world (Sample.arithmetic 5 7))
  = Some ([new_url_view "fov" "CKSZ8f"; redirect "http://example.com";
           new_url_view "ovC" "KSZ8fo"], Sample.second_created_world)
  /\ Forall (@well_formed_row Sample.validators) (links Sample.second_created_world).
Proof.
  split; [reflexivity|].
  exact (@rows_well_formed_from_empty_database Sample.validators 1
           [POST_root 1000 "example.com"; GET_code "fov";
            POST_root 1001 "example.org"]
           (Sample.arithmetic 5 7)
           [new_url_view "fov" "CKSZ8f"; redirect "http://example.com";
            new_url_view "ovC" "KSZ8fo"]
           Sample.second_created_world eq_refl).
Defined.

Lemma only_creation_can_fail_witness :
  schema_ok (links Sample.busy_world)
  /\ integers_ok (links Sample.busy_world)
  /\ Forall (fun row => clicks row < sqlite_max) (links Sample.busy_world)
  /\ (forall now field, GET_code "fov" <> POST_root now field)
  /\ exists r w',
       @serve Sample.validators 1 (GET_code "fov") Sample.busy_world
       = Some (r, w')
       /\ (forall e, r <> internal_server_error e)
       /\ random w' = random Sample.busy_world.
Proof.
  assert (N : forall now field, GET_code "fov" <> POST_root now field)
    by discriminate.
  assert (Below : Forall (fun row => clicks row < sqlite_max)
                         (links Sample.busy_world))
    by (constructor; [reflexivity|constructor]).
  split; [exact busy_world_schema_ok|].
  split; [exact busy_world_integers_ok|]. split; [exact Below|].
  split; [exact N|].
  exact (@only_creation_can_fail Sample.validators 1 (GET_code "fov")
           Sample.busy_world busy_world_schema_ok busy_world_integers_ok
           Below N).
Defined.

(** ** Creation succeeds, and codes come back *)

Section Progress.

Import LinkDatabase.
Context {V : Validators}.

(** X21.  When the submitted text normalises to a URL, the allocation loop
    returns a short code within its fuel, the deletion code generated
    next is not stored yet and the submission time fits a SQLite integer
    (as a time of day in seconds does), the creation succeeds: it answers
    with that short code and deletion code and appends the new link, with
    zero clicks and the submission time, to the table. *)
Theorem handle_new_url_succeeds (fuel : nat) (now : Z) (field u : string)
    (w w1 w2 : World) (code token : string) :
  sqlite_integer now = true ->
  format_url (strip field) = Url u ->
  get_valid_short_link fuel 3 w = Returns code w1 ->
  generate_random_code 6 w1 = Returns token w2 ->
  ~ In token (map deletion_id (links w)) ->
  handle_new_url fuel now field w
  = Returns (new_url_view code token)
      (set_links w2 (links w ++ [mkLink code u token 0 now])%list).
Proof.
  intros Hnow F G T Fresh. unfold handle_new_url. rewrite F.
  rewrite (bind_Returns _ _ _ _ _ G), (bind_Returns _ _ _ _ _ T).
  apply get_valid_short_link_inv in G as (Free & _ & _ & n & (L1 & _)).
  destruct (generate_random_code_returns 6 w1) as (t' & w2' & T' & _ & _ & (L2 & _)).
  rewrite T in T'. injection T' as <- <-.
  unfold bind, add_link.
  change (binds (mkLink code u token 0 now)) with (sqlite_integer now).
  rewrite Hnow. cbn [negb short_link deletion_id].
  assert (E : existsb (fun row => String.eqb (short_link row) code
                                  || String.eqb (deletion_id row) token)
                      (links w2) = false).
  { apply not_true_is_false. rewrite existsb_duplicate_iff, L2, L1.
    apply find_where_None in Free. tauto. }
  rewrite E. unfold ret. now rewrite L2, L1.
Qed.

(** X22.  A short code is free again as soon as its link is deleted: right
    after a deletion that succeeded, an allocation whose first candidate
    is that short code returns it. *)
Theorem deleted_code_can_be_allocated_again (fuel : nat) (length : Z)
    (w w' w'' : World) (code token : string) :
  handle_deletion_request code token w = Returns link_deleted_view w' ->
  generate_random_code length w' = Returns code w'' ->
  get_valid_short_link (S fuel) length w' = Returns code w''.
Proof.
  intros D G.
  pose proof (handle_deletion_request_cases code token w) as C.
  destruct (find (where_short_link code) (links w)) as [l|];
    [|rewrite C in D; discriminate D].
  destruct (String.eqb token (deletion_id l)); rewrite C in D;
    [|discriminate D].
  injection D as <-.
  destruct (generate_random_code_returns length
              (set_links w (filter (fun r => negb (where_short_link code r))
                                   (links w))))
    as (c' & w1 & G' & _ & _ & (L & _)).
  rewrite G in G'. injection G' as <- <-.
  cbn [get_valid_short_link].
  rewrite (bind_Returns _ _ _ _ _ G).
  rewrite (bind_Returns _ _ _ _ _ (is_shortcode_in_db_find code w'')).
  simpl in L. rewrite L.
  now rewrite find_filter_other_key, String.eqb_refl.
Qed.

End Progress.

Lemma handle_new_url_succeeds_witness :
  LinkDatabase.sqlite_integer 1001 = true
  /\ @format_url Sample.validators (strip "example.org") = Url "http://example.org"
  /\ ~ In "KSZ8fo" (map deletion_id (links Sample.clicked_world))
  /\ @handle_new_url Sample.validators 1 1001 "example.org" Sample.clicked_world
     = Returns (new_url_view "ovC" "KSZ8fo") Sample.second_created_world.
Proof.
  assert (Fresh : ~ In "KSZ8fo" (map deletion_id (links Sample.clicked_world)))
    by (simpl; intros [H|[]]; discriminate H).
  split; [reflexivity|]. split; [reflexivity|]. split; [exact Fresh|].
  exact (@handle_new_url_succeeds Sample.validators 1 1001 "example.org"
           "http://example.org" Sample.clicked_world
           (after_draws 3 Sample.clicked_world)
           (after_draws 9 Sample.clicked_world) "ovC" "KSZ8fo"
           eq_refl eq_refl eq_refl eq_refl Fresh).
Defined.

Lemma deleted_code_can_be_allocated_again_witness :
  handle_deletion_request "fov" "CKSZ8f" Sample.busy_world
  = Returns link_deleted_view (set_links Sample.busy_world [])
  /\ LinkDatabase.get_valid_short_link 1 3 (set_links Sample.busy_world [])
     = Returns "fov" (after_draws 3 (set_links Sample.busy_world [])).
Proof.
  split; [reflexivity|].
  exact (deleted_code_can_be_allocated_again 0 3 Sample.busy_world
           (set_links Sample.busy_world [])
           (after_draws 3 (set_links Sample.busy_world []))
           "fov" "CKSZ8f" eq_refl eq_refl).
Defined.

(** ** The range of SQLite integers *)

Section IntegerRange.

Import LinkDatabase.
Context {V : Validators}.

(** Every request leaves a table of SQLite integers a table of SQLite
    integers: what is written has been bound. *)
Lemma serve_integers_ok (fuel : nat) (rq : Request) (w w' : World)
    (r : Response) :
  integers_ok (links w) ->
  serve fuel rq w = Some (r, w') ->
  integers_ok (links w').
Proof.
  intros Int H. destruct rq as [|now field|k|k|k|k token].
  2:{ unfold serve in H. cbn [handler] in H.
      destruct (handle_new_url fuel now field w) as [r0 w0|e w0|] eqn:X;
        [| |discriminate]; injection H as <- <-.
      - pose proof X as X0.
        apply handle_new_url_inv in X0
          as [(_ & _ & ->)|(u & c & t & _ & -> & L & _)]; [assumption|].
        pose proof (handle_new_url_time_binds _ _ _ _ _ _ _ X) as Hnow.
        unfold integers_ok. rewrite L. apply Forall_app. split; [assumption|].
        constructor; [exact Hnow|constructor].
      - unfold integers_ok. now rewrite (handle_new_url_raises _ _ _ _ _ _ X). }
  2:{ unfold serve in H. cbn [handler] in H.
      pose proof (handle_redirect_url_cases k w) as C.
      destruct (find (where_short_link k) (links w)) as [l|] eqn:Hk.
      - destruct C as [(e & C)|(Hb & C)]; rewrite C in H; injection H as <- <-;
          [assumption|].
        simpl. unfold integers_ok in *. rewrite Forall_forall in *.
        intros row' Hr. apply in_map_iff in Hr as (row & <- & Hr).
        destruct (where_short_link k row); [exact Hb|now apply Int].
      - rewrite C in H. now injection H as <- <-. }
  all: apply serve_effect in H
    as [L|[(now' & field' & c & u & tok & E & L & F & D)
          |[(k' & l' & f & E & _)|(k' & c & E & L)]]];
    try discriminate E; unfold integers_ok; rewrite L; try assumption.
  apply Forall_forall. intros row Hr. apply filter_In in Hr as [Hr _].
  unfold integers_ok in Int. rewrite Forall_forall in Int. now apply Int.
Qed.

Lemma serve_all_integers_ok (fuel : nat) (rqs : list Request) (w w' : World)
    (rs : list Response) :
  integers_ok (links w) -> serve_all fuel rqs w = Some (rs, w') ->
  integers_ok (links w').
Proof.
  revert w rs; induction rqs as [|rq rqs IH]; intros w rs Int H; simpl in H.
  - now injection H as <- <-.
  - destruct (serve fuel rq w) as [[r w1]|] eqn:S1; [|discriminate].
    destruct (serve_all fuel rqs w1) as [[rs1 w2]|] eqn:S2; [|discriminate].
    injection H as <- <-. eapply IH; [|exact S2]. eapply serve_integers_ok; eauto.
Qed.

(** The table of a newly created database holds SQLite integers, and so
    does every table reached from it. *)
Lemma integers_ok_from_empty_database (fuel : nat) (rqs : list Request)
    (source : RandomSource) (rs : list Response) (w' : World) :
  serve_all fuel rqs (initial_world source) = Some (rs, w') ->
  integers_ok (links w').
Proof. apply serve_all_integers_ok. constructor. Qed.

(** X23.  The click counter stops at the largest SQLite integer: for a
    stored link whose click count has reached it, a redirect request ends
    in [OverflowError] instead of a redirect, and leaves the state as it
    was, so that every later redirect request for that short code ends
    the same way. *)
Theorem handle_redirect_url_saturated (w : World) (code : string) (l : Link) :
  get_link_from_short code w = Returns (Some l) w ->
  sqlite_max <= clicks l ->
  handle_redirect_url (Some code) w = Raises OverflowError w
  /\ forall fuel n,
       serve_all fuel (repeat (GET_code code) n) w
       = Some (repeat (internal_server_error OverflowError) n, w).
Proof.
  intros Hl Hc. apply get_link_from_short_inv in Hl as [Hf _].
  assert (Hb : binds (clicked l) = false).
  { unfold binds. simpl.
    assert (sqlite_integer (clicks l + 1) = false) as ->; [|reflexivity].
    apply not_true_is_false. rewrite sqlite_integer_spec.
    unfold sqlite_max in Hc. change (2 ^ 63) with 9223372036854775808 in Hc.
    lia. }
  pose proof (handle_redirect_url_overflow code l w Hf Hb) as R.
  split; [exact R|].
  intros fuel n. induction n as [|n IH]; [reflexivity|].
  cbn [repeat serve_all]. unfold serve at 1. cbn [handler].
  now rewrite R, IH.
Qed.

End IntegerRange.

Lemma handle_redirect_url_saturated_witness :
  LinkDatabase.get_link_from_short "fov" Sample.saturated_world
  = Returns (Some (mkLink "fov" "http://example.org" "CKSZ8f" (2 ^ 63 - 1) 900))
            Sample.saturated_world
  /\ sqlite_max <= 2 ^ 63 - 1
  /\ handle_redirect_url (Some "fov") Sample.saturated_world
     = Raises OverflowError Sample.saturated_world
  /\ @serve_all Sample.validators 1 (repeat (GET_code "fov") 2)
       Sample.saturated_world
     = Some (repeat (internal_server_error OverflowError) 2,
             Sample.saturated_world).
Proof.
  assert (Top : sqlite_max <= 2 ^ 63 - 1) by discriminate.
  split; [reflexivity|]. split; [exact Top|].
  destruct (@handle_redirect_url_saturated Sample.validators
              Sample.saturated_world "fov"
              (mkLink "fov" "http://example.org" "CKSZ8f" (2 ^ 63 - 1) 900)
              eq_refl Top) as [R All].
  split; [exact R|exact (All 1%nat 2%nat)].
Defined.
